(** * QDMBoxSearch: the mbox loading and search pipeline

    A shallow embedding of [mbox_search.py] (the command-line tool) and of
    [mbox_search_gui.py] (the desktop tool), with the properties their
    specification states about loading and searching.

    Conventions of the embedding:
    - Python [str] values are [string]s; the library method [str.lower] is a
      parameter [lower] of the sections that use it (Unicode case mapping is
      not a per-character function), instantiated with [Text.ascii_lower]
      where a statement is evaluated on concrete data.
    - Python [bytes] values are [list byte].
    - A raised exception is the [Raise] case of [result]; [try]/[except] is
      [try_except]. *)

From Stdlib Require Import ZArith Lia Ascii String.
From Stdlib Require Strings.Byte.
From stdpp Require Import base list strings gmap sorting.

Local Open Scope string_scope.
Local Open Scope list_scope.
Local Open Scope stdpp_scope.

(** ** Python text *)

Module Text.

(** [q in s] on [str]: [q] occurs in [s] as a contiguous run of characters. *)
Fixpoint contains (q s : string) : bool :=
  String.prefix q s
  || match s with
     | EmptyString => false
     | String _ s' => contains q s'
     end.

(** Containment as the specification words it. *)
Definition substring_of (q s : string) : Prop :=
  exists pre post : string, s = pre +:+ q +:+ post.

(** [str.lower] restricted to ASCII letters. *)
Definition ascii_lower_char (c : ascii) : ascii :=
  let n := nat_of_ascii c in
  if (65 <=? n)%nat && (n <=? 90)%nat then ascii_of_nat (n + 32) else c.

Fixpoint ascii_lower (s : string) : string :=
  match s with
  | EmptyString => EmptyString
  | String c s' => String (ascii_lower_char c) (ascii_lower s')
  end.

(** A value that the code passes to [str()] unless it already is a [str]:
    the [email] library hands out header values either as [str] or as
    [email.header.Header] objects. *)
Record Header := mkHeader { header_str : string }.

Inductive pyval :=
  | PStr (s : string)
  | PHeader (h : Header).

Definition isinstance_str (v : pyval) : bool :=
  match v with PStr _ => true | PHeader _ => false end.

Definition str (v : pyval) : string :=
  match v with PStr s => s | PHeader h => header_str h end.

(** [str(v) if not isinstance(v, str) else v]. *)
Definition as_str (v : pyval) : string :=
  if negb (isinstance_str v) then str v
  else match v with PStr s => s | PHeader h => header_str h end.

(** Truth value of an object: a [str] is true when non-empty, a [Header]
    object always. *)
Definition truthy (v : pyval) : bool :=
  match v with
  | PStr EmptyString => false
  | PStr _ => true
  | PHeader _ => true
  end.

Definition str_truthy (s : string) : bool :=
  match s with EmptyString => false | _ => true end.

End Text.

(** ** Exceptions *)

Module Exn.

Inductive exn :=
  | FileNotFoundError (path : string)
  | ZeroDivisionError
  | AttributeError
  | UnicodeDecodeError
  | ValueError
  | TypeError
  | MarkupError
  | NotRenderableError.

Inductive result (A : Type) :=
  | Ok (a : A)
  | Raise (e : exn).
Arguments Ok {A} a.
Arguments Raise {A} e.

#[export] Instance result_ret : MRet result := fun A a => Ok a.
#[export] Instance result_bind : MBind result := fun A B f r =>
  match r with
  | Ok a => f a
  | Raise e => Raise e
  end.

(** [try: body / except: handler]; a bare [except:] and [except Exception]
    both catch every exception of [exn]. *)
Definition try_except {A} (body : result A) (handler : exn -> result A) : result A :=
  match body with
  | Ok a => Ok a
  | Raise e => handler e
  end.

End Exn.

(** ** The record type of both tools *)

Module Model.
Import Text.

(** [datetime.datetime], as [parsedate_to_datetime] builds it. *)
Record datetime := mkDatetime {
  year : Z; month : Z; day : Z;
  hour : Z; minute : Z; second : Z;
  utcoffset : option Z
}.

(** The [EmailMessage] dataclass, declared alike in both source files.  The
    annotations of a dataclass are not enforced: [message.get] may store a
    [Header] object in a field annotated [str], which is why [search] passes
    the fields through [str()]. *)
Record EmailMessage := mkEmailMessage {
  message_id : pyval;
  subject : pyval;
  from_addr : pyval;
  date : option datetime;
  body : pyval
}.

End Model.

(** ** The [email] library: parsed messages *)

Module Email.
Import Text Exn.

(** The payload of a message is a list of sub-messages (multipart) or a
    single body, kept with its text ([get_payload()]) and with its bytes
    after the transfer decoding ([get_payload(decode=True)]). *)
Inductive Payload (M : Type) :=
  | Parts (parts : list M)
  | Single (raw : string) (decoded : list Byte.byte).
Arguments Parts {M} parts.
Arguments Single {M} raw decoded.

(** A parsed message: header fields in file order, the value of
    [get_content_type()] (which the library derives from the headers and the
    enclosing part) and the payload. *)
#[warnings="-register-all"]
Inductive Message :=
  | mkMessage (headers : list (string * pyval)) (content_type : string)
              (payload : Payload Message).

Definition headers (m : Message) : list (string * pyval) :=
  match m with mkMessage hs _ _ => hs end.

Definition get_content_type (m : Message) : string :=
  match m with mkMessage _ ct _ => ct end.

Definition payload (m : Message) : Payload Message :=
  match m with mkMessage _ _ p => p end.

Definition is_multipart (m : Message) : bool :=
  match payload m with Parts _ => true | Single _ _ => false end.

(** [get_payload(decode=True)]: [None] for a multipart message. *)
Definition get_payload_decode (m : Message) : option (list Byte.byte) :=
  match payload m with Parts _ => None | Single _ decoded => Some decoded end.

(** [get_payload()] of a message that is not multipart.  For a body with
    bytes that are not ASCII the library decodes them with the charset of
    the message and raises when Python does not accept the charset; the
    embedding takes the text as given. *)
Definition get_payload (m : Message) : string :=
  match payload m with Parts _ => "" | Single raw _ => raw end.

(** [walk()]: the message itself, then its parts, depth first. *)
Fixpoint walk (m : Message) : list Message :=
  m :: match m with
       | mkMessage _ _ (Parts parts) => flat_map walk parts
       | mkMessage _ _ (Single _ _) => []
       end.

Section Library.
(** [str.lower]. *)
Variable lower : string -> string.
(** [bytes.decode()], which raises [UnicodeDecodeError] on bytes that are
    not UTF-8. *)
Variable bytes_decode : list Byte.byte -> result string.

(** [Message.get(name, failobj)]: the first header whose name equals
    [name] up to case. *)
Fixpoint get_loop (name : string) (hs : list (string * pyval)) (failobj : pyval) : pyval :=
  match hs with
  | [] => failobj
  | (k, v) :: hs' =>
      if String.eqb (lower k) name then v else get_loop name hs' failobj
  end.

Definition get (m : Message) (name : string) (failobj : pyval) : pyval :=
  get_loop (lower name) (headers m) failobj.

(** [part.get_payload(decode=True).decode()]: calling [.decode()] on the
    [None] of a multipart part raises [AttributeError]. *)
Definition decode_payload (part : Message) : result string :=
  match get_payload_decode part with
  | None => Raise AttributeError
  | Some b => bytes_decode b
  end.
End Library.

End Email.

(** ** The [mailbox] library: the table of contents of an mbox file *)

Module Mailbox.
Import Exn Email.

Definition bytes_of (s : string) : list Byte.byte := list_byte_of_string s.

Definition newline : Byte.byte := Byte.x0a.

(** [os.linesep] as bytes, on a POSIX system. *)
Definition linesep : list Byte.byte := [newline].

(** [s.startswith(prefix)] on bytes. *)
Fixpoint startswith (s prefix : list Byte.byte) : bool :=
  match prefix, s with
  | [], _ => true
  | _ :: _, [] => false
  | p :: prefix', c :: s' => Byte.eqb p c && startswith s' prefix'
  end.

Fixpoint bytes_eqb (s t : list Byte.byte) : bool :=
  match s, t with
  | [], [] => true
  | c :: s', d :: t' => Byte.eqb c d && bytes_eqb s' t'
  | _, _ => false
  end.

(** The lines that successive [readline()] calls return, line ends kept. *)
Fixpoint readlines (f : list Byte.byte) : list (list Byte.byte) :=
  match f with
  | [] => []
  | c :: f' =>
      if Byte.eqb c newline then [c] :: readlines f'
      else match readlines f' with
           | [] => [[c]]
           | line :: lines => (c :: line) :: lines
           end
  end.

(** [f.read(n)]: everything that is left when [n] is negative. *)
Definition read (n : Z) (f : list Byte.byte) : list Byte.byte :=
  if (n <? 0)%Z then f else take (Z.to_nat n) f.

Definition len {A} (l : list A) : Z := Z.of_nat (length l).

(** The [while True] loop of [mbox._generate_toc], one iteration per line
    read; the empty list of lines is the [readline()] that returns [b''] at
    the end of the file. *)
Fixpoint toc_loop (lines : list (list Byte.byte)) (line_pos : Z)
    (starts stops : list Z) (last_was_empty : bool) : list Z * list Z :=
  match lines with
  | [] =>
      if last_was_empty then (starts, stops ++ [line_pos - len linesep])%Z
      else (starts, stops ++ [line_pos])
  | line :: lines' =>
      let next_pos := (line_pos + len line)%Z in
      if startswith line (bytes_of "From ") then
        let stops :=
          if (length stops <? length starts)%nat then
            if last_was_empty then stops ++ [(line_pos - len linesep)%Z]
            else stops ++ [line_pos]
          else stops in
        toc_loop lines' next_pos (starts ++ [line_pos]) stops false
      else if bytes_eqb line linesep then
        toc_loop lines' next_pos starts stops true
      else
        toc_loop lines' next_pos starts stops false
  end.

(** [_generate_toc]: the [(start, stop)] offsets of the messages, in the
    order of the keys [0, 1, ...] of [self._toc]. *)
Definition _generate_toc (f : list Byte.byte) : list (Z * Z) :=
  let '(starts, stops) := toc_loop (readlines f) 0 [] [] false in
  zip starts stops.

Section Factory.
(** [mboxMessage(bytes)]: the parser of the [email] library. *)
Variable message_factory : list Byte.byte -> Message.

(** [get_message]: skip the [From ] line, parse up to [stop].  The library
    also keeps the rest of the [From ] line in the message, decoded as
    ASCII, and raises [UnicodeDecodeError] when it is not; the embedding is
    of files whose [From ] lines are ASCII. *)
Definition get_message (f : list Byte.byte) (key : Z * Z) : Message :=
  let '(start, stop) := key in
  let at_start := drop (Z.to_nat start) f in
  let from_line := default [] (head (readlines at_start)) in
  let tell := (start + len from_line)%Z in
  message_factory (read (stop - tell) (drop (length from_line) at_start)).

(** The messages that iterating over [mailbox.mbox(path)] yields. *)
Definition mbox (f : list Byte.byte) : list Message :=
  map (get_message f) (_generate_toc f).
End Factory.

(** The number of lines of the file that begin with [From ]. *)
Definition from_lines (f : list Byte.byte) : nat :=
  length (List.filter (fun line => startswith line (bytes_of "From ")) (readlines f)).

End Mailbox.

(** ** [mbox_search.py]: the command-line tool *)

Module Cli.
Import Text Exn Model Email.

(** The error messages of the tool that hold a path or the text of an
    exception: the two of [load_mbox] and the one of [main]. *)
Inductive ConsoleError :=
  | FileDoesNotExist (mbox_path : string)
  | ErrorLoading (e : exn)
  | AnErrorOccurred (e : exn).

(** The outcome of [load_mbox]: [self.messages] after a return, the exit
    status of the process after [sys.exit], or the exception that leaves
    the method. *)
Inductive LoadOutcome :=
  | Loaded (messages : list EmailMessage)
  | SysExit (code : Z) (printed : ConsoleError)
  | Raised (e : exn).

Section Searcher.
Variable lower : string -> string.
Variable bytes_decode : list Byte.byte -> result string.
(** [email.utils.parsedate_to_datetime], which raises on a string that is
    not a date and on an argument that is not a string. *)
Variable parsedate_to_datetime : pyval -> result datetime.
Variable message_factory : list Byte.byte -> Message.
(** Whether [console.print] raises on a message: the text goes to rich as
    console markup, path or exception text included, and rich raises
    [MarkupError] on a closing tag that closes nothing, as in
    [a[/b].mbox]. *)
Variable print_fails : ConsoleError -> bool.

(** [self.console.print(...)] followed by [sys.exit(1)]. *)
Definition print_and_exit (message : ConsoleError) : LoadOutcome :=
  if print_fails message then Raised MarkupError else SysExit 1 message.

(** Lines 66-73 of [load_mbox]: "Parse the date header safely". *)
Definition parse_date (message : Message) : result (option datetime) :=
  let date_header := get lower message "Date" (PStr "") in
  if truthy date_header then
    try_except
      (d ← parsedate_to_datetime date_header; Ok (Some d))
      (fun _ => Ok None)
  else Ok None.

(** The [for part in message.walk()] loop of [_get_message_body]. *)
Fixpoint body_loop (parts : list Message) (body : string) : result string :=
  match parts with
  | [] => Ok body
  | part :: parts' =>
      if String.eqb (get_content_type part) "text/plain" then
        body ← try_except
                 (text ← decode_payload bytes_decode part; Ok (body +:+ text))
                 (fun _ => Ok body);
        body_loop parts' body
      else body_loop parts' body
  end.

Definition _get_message_body (message : Message) : result string :=
  if is_multipart message then body_loop (walk message) ""
  else
    try_except (decode_payload bytes_decode message)
               (fun _ => Ok (get_payload message)).

(** The [for message in mbox] loop of [load_mbox]; [messages] is
    [self.messages]. *)
Fixpoint load_loop (mbox : list Message) (messages : list EmailMessage)
    : result (list EmailMessage) :=
  match mbox with
  | [] => Ok messages
  | message :: mbox' =>
      date_obj ← parse_date message;
      body ← _get_message_body message;
      let email := {|
        message_id := get lower message "Message-ID" (PStr "");
        subject := get lower message "Subject" (PStr "");
        from_addr := get lower message "From" (PStr "");
        date := date_obj;
        body := PStr body |} in
      load_loop mbox' (messages ++ [email])
  end.

(** [load_mbox], on a file system that maps the paths that exist to the
    bytes of their files. *)
Definition load_mbox (fs : gmap string (list Byte.byte)) (mbox_path : string)
    : LoadOutcome :=
  match fs !! mbox_path with
  | None => print_and_exit (FileDoesNotExist mbox_path)
  | Some f =>
      match load_loop (Mailbox.mbox message_factory f) [] with
      | Ok messages => Loaded messages
      | Raise e => print_and_exit (ErrorLoading e)
      end
  end.

(** The [for message in self.messages] loop of [search]; [query] is
    already lowercased. *)
Fixpoint search_loop (messages : list EmailMessage) (query : string)
    (search_subject search_body : bool) (results : list EmailMessage)
    : list EmailMessage :=
  match messages with
  | [] => results
  | message :: messages' =>
      let match_ := false in
      let subject := as_str (subject message) in
      let body := as_str (body message) in
      let match_ :=
        if search_subject && contains query (lower subject) then true
        else match_ in
      let match_ :=
        if search_body && contains query (lower body) then true
        else match_ in
      let results := if match_ then results ++ [message] else results in
      search_loop messages' query search_subject search_body results
  end.

Definition search (messages : list EmailMessage) (query : string)
    (search_subject search_body : bool) : list EmailMessage :=
  let query := lower query in
  search_loop messages query search_subject search_body [].
End Searcher.

End Cli.

(** ** [mbox_search_gui.py]: the desktop tool *)

Module Gui.
Import Text Exn Model Email.

(** The texts that [run] sends through the [status] signal. *)
Inductive StatusText :=
  | ScanningFile
  | FoundMessages (message_count : Z)
  | LoadingMessage (current_message message_count : Z).

(** The signals of [MBoxLoader]; [error] carries the exception whose
    [str()] the code sends. *)
Inductive Signal :=
  | progress (value : Z)
  | status (text : StatusText)
  | finished (messages : list EmailMessage)
  | error (e : exn).

(** A computation that emits signals and then returns or raises: the signals
    emitted before an exception stay emitted. *)
Definition Emit (A : Type) : Type := list Signal * result A.

#[export] Instance emit_ret : MRet Emit := fun A a => ([], Ok a).
#[export] Instance emit_bind : MBind Emit := fun A B f m =>
  match m with
  | (out, Ok a) => let '(out', r) := f a in (out ++ out', r)
  | (out, Raise e) => (out, Raise e)
  end.

Definition emit (s : Signal) : Emit unit := ([s], Ok tt).
Definition lift {A} (r : result A) : Emit A := ([], r).

(** [a / b] on integers is true division.  Python rounds the quotient to a
    binary64 float; the embedding keeps the exact rational, which is the
    float wherever the quotient is a small integer (as [1 / 1] and
    [2 / 1]).  Elsewhere the progress value of Python can be one less than
    the one here, as at [29 / 50], where [int((29 / 50) * 50)] is 28. *)
Definition true_div (a b : Z) : result QArith_base.Q :=
  if (b =? 0)%Z then Raise ZeroDivisionError
  else Ok (QArith_base.Qdiv (QArith_base.inject_Z a) (QArith_base.inject_Z b)).

(** [int(x)]: truncation towards zero. *)
Definition int (x : QArith_base.Q) : Z :=
  Z.quot (QArith_base.Qnum x) (Z.pos (QArith_base.Qden x)).

Definition times (x : QArith_base.Q) (n : Z) : QArith_base.Q :=
  QArith_base.Qmult x (QArith_base.inject_Z n).

(** [chunk.count(sub)] for a non-empty [sub]: occurrences that do not
    overlap, from the left; [skip] bytes of the last occurrence are still to
    be passed. *)
Fixpoint count_from (sub : list Byte.byte) (skip : nat) (chunk : list Byte.byte) : Z :=
  match chunk with
  | [] => 0
  | _ :: chunk' =>
      match skip with
      | S skip' => count_from sub skip' chunk'
      | O =>
          if Mailbox.startswith chunk sub
          then (1 + count_from sub (length sub - 1) chunk')%Z
          else count_from sub 0 chunk'
      end
  end.

Definition count (chunk sub : list Byte.byte) : Z := count_from sub 0 chunk.

(** The chunks that the [while True: chunk = f.read(chunk_size)] loop sees
    before the empty one; a chunk takes at least one byte, so [length f]
    rounds are enough. *)
Fixpoint read_chunks (rounds chunk_size : nat) (f : list Byte.byte)
    : list (list Byte.byte) :=
  match rounds with
  | O => []
  | S rounds' =>
      match take chunk_size f with
      | [] => []
      | chunk => chunk :: read_chunks rounds' chunk_size (drop chunk_size f)
      end
  end.

Definition chunk_size : nat := 1024 * 1024.

(** The body of the first pass, for each chunk read. *)
Fixpoint scan_loop (chunks : list (list Byte.byte)) (file_size : Z)
    (message_count bytes_processed : Z) : Emit Z :=
  match chunks with
  | [] => mret message_count
  | chunk :: chunks' =>
      let bytes_processed := (bytes_processed + Mailbox.len chunk)%Z in
      let message_count :=
        (message_count + count chunk (Mailbox.newline :: Mailbox.bytes_of "From "))%Z in
      q ← lift (true_div bytes_processed file_size);
      let progress_ := int (times q 50) in
      emit (progress progress_);;
      scan_loop chunks' file_size message_count bytes_processed
  end.

Section Loader.
Variable lower : string -> string.
Variable bytes_decode : list Byte.byte -> result string.
Variable parsedate_to_datetime : pyval -> result datetime.
Variable message_factory : list Byte.byte -> Message.

(** Lines 78-85 of [run]: "Parse the date header safely". *)
Definition parse_date (message : Message) : result (option datetime) :=
  let date_header := get lower message "Date" (PStr "") in
  if truthy date_header then
    try_except
      (d ← parsedate_to_datetime date_header; Ok (Some d))
      (fun _ => Ok None)
  else Ok None.

(** The [for part in message.walk()] loop of [run], on the pair
    [(body, html_body)]. *)
Fixpoint parts_loop (parts : list Message) (body html_body : string)
    : result (string * string) :=
  match parts with
  | [] => Ok (body, html_body)
  | part :: parts' =>
      let content_type := get_content_type part in
      if String.eqb content_type "text/plain" then
        body ← try_except
                 (text ← decode_payload bytes_decode part; Ok (body +:+ text))
                 (fun _ => Ok body);
        parts_loop parts' body html_body
      else if String.eqb content_type "text/html" then
        html_body ← try_except
                      (text ← decode_payload bytes_decode part;
                       Ok (html_body +:+ text))
                      (fun _ => Ok html_body);
        parts_loop parts' body html_body
      else parts_loop parts' body html_body
  end.

(** Lines 87-110 of [run]: [(body, html_body)] of one message. *)
Definition get_bodies (message : Message) : result (string * string) :=
  let body := "" in
  let html_body := "" in
  if is_multipart message then parts_loop (walk message) body html_body
  else
    try_except
      (if String.eqb (get_content_type message) "text/html" then
         text ← decode_payload bytes_decode message; Ok (body, text)
       else
         text ← decode_payload bytes_decode message; Ok (text, html_body))
      (fun _ => Ok (get_payload message, html_body)).

(** The record of one message: lines 112-118. *)
Definition make_email (message : Message) : result EmailMessage :=
  date_obj ← parse_date message;
  '(body, html_body) ← get_bodies message;
  Ok {| message_id := get lower message "Message-ID" (PStr "");
        subject := get lower message "Subject" (PStr "");
        from_addr := get lower message "From" (PStr "");
        date := date_obj;
        body := PStr (if str_truthy html_body then html_body else body) |}.

(** The second pass: the [for message in mbox] loop. *)
Fixpoint load_loop (mbox : list Message) (message_count : Z)
    (messages : list EmailMessage) (current_message : Z)
    : Emit (list EmailMessage) :=
  match mbox with
  | [] => mret messages
  | message :: mbox' =>
      email ← lift (make_email message);
      let messages := messages ++ [email] in
      let current_message := (current_message + 1)%Z in
      q ← lift (true_div current_message message_count);
      let progress_ := (50 + int (times q 50))%Z in
      emit (progress progress_);;
      _ ← lift (true_div current_message message_count);
      emit (status (LoadingMessage current_message message_count));;
      load_loop mbox' message_count messages current_message
  end.

(** The [try] block of [run]; [os.path.getsize] raises on a path that does
    not exist. *)
Definition run_try (fs : gmap string (list Byte.byte)) (mbox_path : string)
    : Emit unit :=
  emit (status ScanningFile);;
  let message_count := 0%Z in
  f ← lift (match fs !! mbox_path with
            | Some f => Ok f
            | None => Raise (FileNotFoundError mbox_path)
            end);
  let file_size := Mailbox.len f in
  let bytes_processed := 0%Z in
  message_count ← scan_loop (read_chunks (length f) chunk_size f)
                            file_size message_count bytes_processed;
  emit (status (FoundMessages message_count));;
  let mbox := Mailbox.mbox message_factory f in
  messages ← load_loop mbox message_count [] 0;
  emit (finished messages).

(** [run]: every signal emitted, in order. *)
Definition run (fs : gmap string (list Byte.byte)) (mbox_path : string)
    : list Signal :=
  match run_try fs mbox_path with
  | (out, Ok _) => out
  | (out, Raise e) => out ++ [error e]
  end.

(** [MainWindow.search] on [self.messages], the text of the search box and
    the entry chosen in the combo box; the result is what it hands to
    [display_results]. *)
Fixpoint search_loop (messages : list EmailMessage) (query : string)
    (search_type : string) (results : list EmailMessage) : list EmailMessage :=
  match messages with
  | [] => results
  | message :: messages' =>
      let match_ := false in
      let subject := as_str (subject message) in
      let body := as_str (body message) in
      let match_ :=
        if existsb (String.eqb search_type) ["Subject"; "Both"]
           && contains query (lower subject) then true
        else match_ in
      let match_ :=
        if existsb (String.eqb search_type) ["Body"; "Both"]
           && contains query (lower body) then true
        else match_ in
      let results := if match_ then results ++ [message] else results in
      search_loop messages' query search_type results
  end.

Definition search (messages : list EmailMessage) (search_input : string)
    (search_type : string) : list EmailMessage :=
  let query := lower search_input in
  search_loop messages query search_type [].
End Loader.

End Gui.

(** ** The specification's view of the operations *)

Module Spec.
Import Text Exn Model Email.

Section Search.
Variable lower : string -> string.

(** "At least one enabled field contains the query as a case-insensitive
    substring": the test of one record. *)
Definition record_matches (query : string) (match_subject match_body : bool)
    (message : EmailMessage) : bool :=
  (match_subject && contains (lower query) (lower (str (subject message))))
  || (match_body && contains (lower query) (lower (str (body message)))).

(** The same test, in terms of [substring_of]. *)
Definition record_matches_prop (query : string) (match_subject match_body : bool)
    (message : EmailMessage) : Prop :=
  (match_subject = true
   /\ substring_of (lower query) (lower (str (subject message))))
  \/ (match_body = true
      /\ substring_of (lower query) (lower (str (body message)))).
End Search.

(** The field flags that an entry of the combo box stands for. *)
Definition subject_enabled (search_type : string) : bool :=
  existsb (String.eqb search_type) ["Subject"; "Both"].

Definition body_enabled (search_type : string) : bool :=
  existsb (String.eqb search_type) ["Body"; "Both"].

End Spec.

(** ** The specification's view of the loader *)

Module LoaderSpec.
Import Text Exn Model Email.

(** Concatenation of a list of texts. *)
Definition join (texts : list string) : string := foldr String.append "" texts.

Definition has_type (content_type : string) (part : Message) : bool :=
  String.eqb (get_content_type part) content_type.

Section Parts.
Variable lower : string -> string.
Variable bytes_decode : list Byte.byte -> result string.
Variable parsedate_to_datetime : pyval -> result datetime.

(** The decoded text of a part; a part that fails to decode contributes
    nothing. *)
Definition decoded_text (part : Message) : string :=
  match decode_payload bytes_decode part with
  | Ok text => text
  | Raise _ => ""
  end.

(** "The concatenation of the decoded text of every part whose content
    type is plain text", in the order of [walk]. *)
Definition plain_text (message : Message) : string :=
  join (map decoded_text (List.filter (has_type "text/plain") (walk message))).

Definition html_text (message : Message) : string :=
  join (map decoded_text (List.filter (has_type "text/html") (walk message))).

(** "The concatenation of all plain-text parts, or the HTML part if no
    usable plain-text part exists". *)
Definition plain_else_html (message : Message) : string :=
  if str_truthy (plain_text message) then plain_text message
  else html_text message.

(** The HTML text where there is one, the plain text otherwise. *)
Definition html_else_plain (message : Message) : string :=
  if str_truthy (html_text message) then html_text message
  else plain_text message.

(** The message has a header named [name], up to case. *)
Definition has_header (name : string) (message : Message) : bool :=
  existsb (fun kv => String.eqb (lower (fst kv)) (lower name)) (headers message).

(** The [Date] header is missing, or it is there and
    [parsedate_to_datetime] raises on it. *)
Definition date_unusable (message : Message) : Prop :=
  has_header "Date" message = false
  \/ exists e, parsedate_to_datetime (get lower message "Date" (PStr "")) = Raise e.

(** The timestamp of a record. *)
Definition timestamp (message : Message) : option datetime :=
  let date_header := get lower message "Date" (PStr "") in
  if truthy date_header then
    match parsedate_to_datetime date_header with
    | Ok d => Some d
    | Raise _ => None
    end
  else None.

(** The body of a message that is not multipart: its decoded payload, or
    the payload as it is where decoding fails. *)
Definition single_text (message : Message) : string :=
  match decode_payload bytes_decode message with
  | Ok text => text
  | Raise _ => get_payload message
  end.

Definition headers_record (message : Message) (body_ : string) : EmailMessage :=
  {| message_id := get lower message "Message-ID" (PStr "");
     subject := get lower message "Subject" (PStr "");
     from_addr := get lower message "From" (PStr "");
     date := timestamp message;
     body := PStr body_ |}.

(** The record that the command-line tool builds for a message. *)
Definition cli_record (message : Message) : EmailMessage :=
  headers_record message
    (if is_multipart message then plain_text message else single_text message).

(** The record that the desktop tool builds for a message. *)
Definition gui_record (message : Message) : EmailMessage :=
  headers_record message
    (if is_multipart message then html_else_plain message
     else single_text message).
End Parts.

(** The value that the first pass leaves in [message_count]. *)
Definition scan_count (chunks : list (list Byte.byte)) : Z :=
  foldr (fun chunk n =>
           (Gui.count chunk (Mailbox.newline :: Mailbox.bytes_of "From ") + n)%Z)
        0%Z chunks.

Definition prescan_count (f : list Byte.byte) : Z :=
  scan_count (Gui.read_chunks (length f) Gui.chunk_size f).

(** [int((a / b) * 50)]. *)
Definition scaled (a b : Z) : Z :=
  Gui.int (Gui.times (QArith_base.Qdiv (QArith_base.inject_Z a)
                                       (QArith_base.inject_Z b)) 50).

(** The progress values of the first pass. *)
Fixpoint scan_progress (chunks : list (list Byte.byte)) (file_size bytes_processed : Z)
    : list Z :=
  match chunks with
  | [] => []
  | chunk :: chunks' =>
      let bytes_processed := (bytes_processed + Mailbox.len chunk)%Z in
      scaled bytes_processed file_size
      :: scan_progress chunks' file_size bytes_processed
  end.

(** The progress value after [current_message] of [message_count]. *)
Definition load_progress (message_count current_message : Z) : Z :=
  (50 + scaled current_message message_count)%Z.

(** The signals of the second pass for [n] messages after the first
    [current_message]. *)
Fixpoint load_signals (n : nat) (message_count current_message : Z)
    : list Gui.Signal :=
  match n with
  | O => []
  | S n' =>
      let current_message := (current_message + 1)%Z in
      Gui.progress (load_progress message_count current_message)
      :: Gui.status (Gui.LoadingMessage current_message message_count)
      :: load_signals n' message_count current_message
  end.

(** The progress values that a run has emitted. *)
Definition progress_values (out : list Gui.Signal) : list Z :=
  omap (fun s => match s with Gui.progress v => Some v | _ => None end) out.

(** The record sequences that a run has handed over. *)
Definition finished_batches (out : list Gui.Signal) : list (list EmailMessage) :=
  omap (fun s => match s with Gui.finished ms => Some ms | _ => None end) out.

(** The message counts that a run has announced. *)
Definition announced_counts (out : list Gui.Signal) : list Z :=
  omap (fun s => match s with
                 | Gui.status (Gui.FoundMessages n) => Some n
                 | _ => None
                 end) out.

End LoaderSpec.

(** ** Sample data *)

Module Samples.
Import Text Exn Model Email.

Definition record (subject_ body_ : string) : EmailMessage :=
  {| message_id := PStr ""; subject := PStr subject_; from_addr := PStr "";
     date := None; body := PStr body_ |}.

Definition record_a : EmailMessage := record "Quarterly Report" "Figures attached".
Definition record_b : EmailMessage := record "Lunch" "Noon at the usual place".
Definition record_c : EmailMessage := record "Minutes" "The REPORT was approved".

(** [bytes.decode('ascii')]: a decoder for the evaluations below, which
    agrees with the UTF-8 one on ASCII bytes and raises on the others. *)
Definition ascii_decode (b : list Byte.byte) : result string :=
  if forallb (fun c => (Byte.to_N c <? 128)%N) b then Ok (string_of_list_byte b)
  else Raise UnicodeDecodeError.

(** A date parser for the evaluations below: it knows one date. *)
Definition new_year : datetime :=
  {| year := 2024; month := 1; day := 1; hour := 0; minute := 0; second := 0;
     utcoffset := Some 0%Z |}.

Definition sample_parsedate (v : pyval) : result datetime :=
  match v with
  | PStr s =>
      if String.eqb s "Mon, 01 Jan 2024 00:00:00 +0000" then Ok new_year
      else Raise ValueError
  | PHeader _ => Raise AttributeError
  end.

(** A parser for the evaluations below: the whole text of a message becomes
    the body of a message without headers. *)
Definition body_only_factory (b : list Byte.byte) : Message :=
  mkMessage [] "text/plain" (Single (string_of_list_byte b) b).

Definition leaf (content_type text : string) : Message :=
  mkMessage [] content_type (Single text (Mailbox.bytes_of text)).

(** A message with a plain-text part and an HTML part. *)
Definition alternative : Message :=
  mkMessage [("Subject", PStr "Greeting"); ("Date", PStr "yesterday")]
            "multipart/alternative"
            (Parts [leaf "text/plain" "Hello"; leaf "text/html" "<p>Hello</p>"]).

(** A message that is not multipart, with a date that parses. *)
Definition dated : Message :=
  mkMessage [("DATE", PStr "Mon, 01 Jan 2024 00:00:00 +0000")] "text/plain"
            (Single "Happy new year" (Mailbox.bytes_of "Happy new year")).

(** A message with a plain-text part and an attachment. *)
Definition with_attachment : Message :=
  mkMessage [("Subject", PStr "Report")] "multipart/mixed"
            (Parts [leaf "text/plain" "Hello"; leaf "application/pdf" "JVBERi0x"]).

(** A message whose first plain-text part is not valid text. *)
Definition with_bad_part : Message :=
  mkMessage [] "multipart/mixed"
            (Parts [mkMessage [] "text/plain" (Single "?" [Byte.xff]);
                    leaf "text/plain" "Hello"]).

Definition file_of_lines (lines : list string) : list Byte.byte :=
  flat_map (fun line => Mailbox.bytes_of line ++ [Mailbox.newline]) lines.

(** An mbox file with two messages. *)
Definition two_messages : list Byte.byte :=
  file_of_lines
    ["From alice@example.org Mon Jan  1 00:00:00 2024";
     "Subject: one"; ""; "first"; "";
     "From bob@example.org Tue Jan  2 00:00:00 2024";
     "Subject: two"; ""; "second"].

(** An mbox file with one message. *)
Definition one_message : list Byte.byte :=
  file_of_lines
    ["From alice@example.org Mon Jan  1 00:00:00 2024";
     "Subject: one"; ""; "first"].


Definition sample_fs : gmap string (list Byte.byte) :=
  {[ "two.mbox" := two_messages; "one.mbox" := one_message ]}.

(** A stand-in for rich's markup check in the evaluations below: of their
    messages it rejects the one with the path [a[/b].mbox], whose [[/b]]
    is a closing tag that closes nothing, and the one with the text of a
    [MarkupError], which quotes the tag that rich refused. *)
Definition closing_tag_fails (message : Cli.ConsoleError) : bool :=
  match message with
  | Cli.FileDoesNotExist mbox_path => String.eqb mbox_path "a[/b].mbox"
  | Cli.ErrorLoading _ => false
  | Cli.AnErrorOccurred MarkupError => true
  | Cli.AnErrorOccurred _ => false
  end.

End Samples.

(** ** [mbox_search.py]: showing results and the menu loop *)

Module CliMain.
Import Text Exn Model Email.

(** What [display_results] prints: the notice, or the panel with the rows
    passed to [table.add_row]. *)
Inductive Display :=
  | NoResultsFound
  | ResultsPanel (rows : list (string * pyval * pyval)).

(** What [main] writes on the console; [SearchCall] records the call
    [searcher.search(query, search_subject, search_body)]. *)
Inductive ConsoleEvent :=
  | Usage
  | LoadFailed (printed : Cli.ConsoleError)
  | LoadedMessages (n : nat)
  | Menu
  | InvalidChoice
  | EmptyQuery
  | SearchCall (query : string) (search_subject search_body : bool)
  | Shown (display : Display)
  | Interrupted
  | ErrorOccurred.

(** What happens at a prompt of [input()]: a line is typed, or Ctrl-C
    raises [KeyboardInterrupt].  A Ctrl-C at another moment is not part of
    the embedding. *)
Inductive Typed :=
  | Line (text : string)
  | Interrupt.

(** How the process ends: [main] returns, [sys.exit(code)], or an exception
    that nothing catches. *)
Inductive MainOutcome :=
  | Returned
  | Exited (code : Z)
  | Uncaught (e : exn).

Section Main.
Variable lower : string -> string.
Variable bytes_decode : list Byte.byte -> result string.
Variable parsedate_to_datetime : pyval -> result datetime.
Variable message_factory : list Byte.byte -> Message.
Variable print_fails : Cli.ConsoleError -> bool.
(** Whether rich raises [MarkupError] on the text of a cell of the table,
    which it reads as console markup too. *)
Variable render_fails : string -> bool.
(** [d.strftime("%Y-%m-%d %H:%M")]. *)
Variable strftime : datetime -> string.

Definition cell_fails (cell : pyval) : bool :=
  match cell with
  | PStr s => render_fails s
  | PHeader _ => false
  end.

(** The [for message in results] loop of [display_results];
    [table.add_row] raises [NotRenderableError] on a cell that is not a
    string, as a [Header] is. *)
Fixpoint add_rows (results : list EmailMessage)
    (table : list (string * pyval * pyval))
    : result (list (string * pyval * pyval)) :=
  match results with
  | [] => Ok table
  | message :: results' =>
      let date_str :=
        match date message with
        | Some d => strftime d
        | None => "Unknown"
        end in
      if isinstance_str (from_addr message) && isinstance_str (subject message) then
        add_rows results' (table ++ [(date_str, from_addr message, subject message)])
      else Raise NotRenderableError
  end.

(** [display_results]; the cells are rendered by the [console.print] of the
    panel, after every row has been added. *)
Definition display_results (results : list EmailMessage) : result Display :=
  match results with
  | [] => Ok NoResultsFound
  | _ :: _ =>
      table ← add_rows results [];
      if existsb (fun '(_, from_, subject_) => cell_fails from_ || cell_fails subject_)
                 table
      then Raise MarkupError
      else Ok (ResultsPanel table)
  end.

(** The [except Exception as e] branch of [main]: the text of the exception
    is printed as console markup, then [sys.exit(1)]. *)
Definition except_exception (e : exn) : list ConsoleEvent * MainOutcome :=
  if print_fails (Cli.AnErrorOccurred e) then ([], Uncaught MarkupError)
  else ([ErrorOccurred], Exited 1).

(** The [while True] loop of [main], on what happens at the prompts of
    [input()].  At the end of the input [input()] raises [EOFError], which
    [except Exception] turns into [sys.exit(1)]; after a Ctrl-C,
    [except KeyboardInterrupt] prints a notice and [main] returns. *)
Fixpoint menu_loop (messages : list EmailMessage) (inputs : list Typed)
    : list ConsoleEvent * MainOutcome :=
  match inputs with
  | [] => ([Menu; ErrorOccurred], Exited 1)
  | Interrupt :: _ => ([Menu; Interrupted], Returned)
  | Line choice :: inputs' =>
      if String.eqb choice "4" then ([Menu], Returned)
      else if negb (existsb (String.eqb choice) ["1"; "2"; "3"]) then
        let '(events, outcome) := menu_loop messages inputs' in
        (Menu :: InvalidChoice :: events, outcome)
      else
        match inputs' with
        | [] => ([Menu; ErrorOccurred], Exited 1)
        | Interrupt :: _ => ([Menu; Interrupted], Returned)
        | Line query :: inputs'' =>
            if negb (str_truthy query) then
              let '(events, outcome) := menu_loop messages inputs'' in
              (Menu :: EmptyQuery :: events, outcome)
            else
              let search_subject := existsb (String.eqb choice) ["1"; "3"] in
              let search_body := existsb (String.eqb choice) ["2"; "3"] in
              let results :=
                Cli.search lower messages query search_subject search_body in
              match display_results results with
              | Ok display =>
                  let '(events, outcome) := menu_loop messages inputs'' in
                  (Menu :: SearchCall query search_subject search_body
                        :: Shown display :: events, outcome)
              | Raise e =>
                  let '(events, outcome) := except_exception e in
                  (Menu :: SearchCall query search_subject search_body :: events,
                   outcome)
              end
        end
  end.

(** [main], on [sys.argv], the file system and what is typed.  [SystemExit]
    passes [except Exception]; an exception of [load_mbox] is caught
    there. *)
Definition main (argv : list string) (fs : gmap string (list Byte.byte))
    (inputs : list Typed) : list ConsoleEvent * MainOutcome :=
  match argv with
  | [_; mbox_path] =>
      match Cli.load_mbox lower bytes_decode parsedate_to_datetime message_factory
                          print_fails fs mbox_path with
      | Cli.SysExit code printed => ([LoadFailed printed], Exited code)
      | Cli.Raised e => except_exception e
      | Cli.Loaded messages =>
          let '(events, outcome) := menu_loop messages inputs in
          (LoadedMessages (length messages) :: events, outcome)
      end
  | _ => ([Usage], Exited 1)
  end.
End Main.

End CliMain.

(** ** The [re] library: patterns and [re.search] *)

Module Regex.

(** The patterns that the code needs: one character, any character but
    one, sequence and repetition (with the cases that derivatives add). *)
Inductive re :=
  | Empty
  | Eps
  | Lit (c : ascii)
  | NotLit (c : ascii)
  | Cat (r1 r2 : re)
  | Alt (r1 r2 : re)
  | Star (r : re).

(** [r+]. *)
Definition Plus (r : re) : re := Cat r (Star r).

(** The texts that a pattern matches. *)
Inductive matches : re -> string -> Prop :=
  | matches_eps : matches Eps ""
  | matches_lit c : matches (Lit c) (String c "")
  | matches_notlit c d : d <> c -> matches (NotLit c) (String d "")
  | matches_cat r1 r2 s1 s2 :
      matches r1 s1 -> matches r2 s2 -> matches (Cat r1 r2) (s1 +:+ s2)
  | matches_alt_l r1 r2 s : matches r1 s -> matches (Alt r1 r2) s
  | matches_alt_r r1 r2 s : matches r2 s -> matches (Alt r1 r2) s
  | matches_star_nil r : matches (Star r) ""
  | matches_star_app r s1 s2 :
      matches r s1 -> matches (Star r) s2 -> matches (Star r) (s1 +:+ s2).

Fixpoint nullable (r : re) : bool :=
  match r with
  | Empty => false
  | Eps => true
  | Lit _ => false
  | NotLit _ => false
  | Cat r1 r2 => nullable r1 && nullable r2
  | Alt r1 r2 => nullable r1 || nullable r2
  | Star _ => true
  end.

(** The pattern of the texts [s] such that [r] matches [c] followed by
    [s]. *)
Fixpoint deriv (c : ascii) (r : re) : re :=
  match r with
  | Empty => Empty
  | Eps => Empty
  | Lit d => if Ascii.eqb c d then Eps else Empty
  | NotLit d => if Ascii.eqb c d then Empty else Eps
  | Cat r1 r2 =>
      if nullable r1 then Alt (Cat (deriv c r1) r2) (deriv c r2)
      else Cat (deriv c r1) r2
  | Alt r1 r2 => Alt (deriv c r1) (deriv c r2)
  | Star r1 => Cat (deriv c r1) (Star r1)
  end.

(** [re.match(r, s)] finds a match: [r] matches a prefix of [s]. *)
Fixpoint match_prefix (r : re) (s : string) : bool :=
  nullable r
  || match s with
     | EmptyString => false
     | String c s' => match_prefix (deriv c r) s'
     end.

(** [bool(re.search(r, s))]: [r] matches somewhere in [s]. *)
Fixpoint search (r : re) (s : string) : bool :=
  match_prefix r s
  || match s with
     | EmptyString => false
     | String _ s' => search r s'
     end.

End Regex.

(** ** [mbox_search_gui.py]: the main window *)

Module Window.
Import Text Exn Model Email.

(** The texts of the status bar. *)
Inductive StatusBarText :=
  | Ready
  | Initializing
  | FromLoader (text : Gui.StatusText)
  | LoadedMessages (n : nat)
  | FoundResults (n : nat).

(** A row of [results_table]: the texts of its three items and the message
    stored in the first one under [UserRole]. *)
Record Row := mkRow {
  date_item : string;
  from_item : string;
  subject_item : string;
  user_role : EmailMessage
}.

(** The document given to [message_preview.setHtml]: the template for HTML
    bodies or the one with [<pre>], filled with the subject, the sender, the
    date and the body. *)
Inductive Preview :=
  | HtmlDocument (subject_ from_ date_ body_ : string)
  | PreformattedDocument (subject_ from_ date_ body_ : string).

(** The state of [MainWindow] that its methods read and write;
    [progress_bar_value] is the argument of the last [setValue], and
    [critical_boxes] the errors shown with [QMessageBox.critical]. *)
Record MainWindow := mkMainWindow {
  messages : list EmailMessage;
  file_label : string;
  progress_bar_visible : bool;
  progress_bar_value : option Z;
  status_bar : StatusBarText;
  search_input : string;
  search_type : string;
  results_table : list Row;
  message_preview : option Preview;
  critical_boxes : list exn
}.

(** The window after [__init__]. *)
Definition init : MainWindow :=
  {| messages := [];
     file_label := "No file selected";
     progress_bar_visible := false;
     progress_bar_value := None;
     status_bar := Ready;
     search_input := "";
     search_type := "Subject";
     results_table := [];
     message_preview := None;
     critical_boxes := [] |}.

Definition set_messages (ms : list EmailMessage) (w : MainWindow) : MainWindow :=
  {| messages := ms; file_label := file_label w;
     progress_bar_visible := progress_bar_visible w;
     progress_bar_value := progress_bar_value w; status_bar := status_bar w;
     search_input := search_input w; search_type := search_type w;
     results_table := results_table w; message_preview := message_preview w;
     critical_boxes := critical_boxes w |}.

Definition set_file_label (text : string) (w : MainWindow) : MainWindow :=
  {| messages := messages w; file_label := text;
     progress_bar_visible := progress_bar_visible w;
     progress_bar_value := progress_bar_value w; status_bar := status_bar w;
     search_input := search_input w; search_type := search_type w;
     results_table := results_table w; message_preview := message_preview w;
     critical_boxes := critical_boxes w |}.

Definition set_visible (visible : bool) (w : MainWindow) : MainWindow :=
  {| messages := messages w; file_label := file_label w;
     progress_bar_visible := visible;
     progress_bar_value := progress_bar_value w; status_bar := status_bar w;
     search_input := search_input w; search_type := search_type w;
     results_table := results_table w; message_preview := message_preview w;
     critical_boxes := critical_boxes w |}.

Definition set_value (value : Z) (w : MainWindow) : MainWindow :=
  {| messages := messages w; file_label := file_label w;
     progress_bar_visible := progress_bar_visible w;
     progress_bar_value := Some value; status_bar := status_bar w;
     search_input := search_input w; search_type := search_type w;
     results_table := results_table w; message_preview := message_preview w;
     critical_boxes := critical_boxes w |}.

Definition show_message (text : StatusBarText) (w : MainWindow) : MainWindow :=
  {| messages := messages w; file_label := file_label w;
     progress_bar_visible := progress_bar_visible w;
     progress_bar_value := progress_bar_value w; status_bar := text;
     search_input := search_input w; search_type := search_type w;
     results_table := results_table w; message_preview := message_preview w;
     critical_boxes := critical_boxes w |}.

Definition set_table (rows : list Row) (w : MainWindow) : MainWindow :=
  {| messages := messages w; file_label := file_label w;
     progress_bar_visible := progress_bar_visible w;
     progress_bar_value := progress_bar_value w; status_bar := status_bar w;
     search_input := search_input w; search_type := search_type w;
     results_table := rows; message_preview := message_preview w;
     critical_boxes := critical_boxes w |}.

Definition set_html (document : Preview) (w : MainWindow) : MainWindow :=
  {| messages := messages w; file_label := file_label w;
     progress_bar_visible := progress_bar_visible w;
     progress_bar_value := progress_bar_value w; status_bar := status_bar w;
     search_input := search_input w; search_type := search_type w;
     results_table := results_table w; message_preview := Some document;
     critical_boxes := critical_boxes w |}.

Definition critical (e : exn) (w : MainWindow) : MainWindow :=
  {| messages := messages w; file_label := file_label w;
     progress_bar_visible := progress_bar_visible w;
     progress_bar_value := progress_bar_value w; status_bar := status_bar w;
     search_input := search_input w; search_type := search_type w;
     results_table := results_table w; message_preview := message_preview w;
     critical_boxes := critical_boxes w ++ [e] |}.

(** The pattern [r'<[^>]+>'] of [show_selected_message]. *)
Definition tag_pattern : Regex.re :=
  Regex.Cat (Regex.Lit "<") (Regex.Cat (Regex.Plus (Regex.NotLit ">")) (Regex.Lit ">")).

Section Methods.
Variable lower : string -> string.
Variable bytes_decode : list Byte.byte -> result string.
Variable parsedate_to_datetime : pyval -> result datetime.
Variable message_factory : list Byte.byte -> Message.
(** [d.strftime("%Y-%m-%d %H:%M")]. *)
Variable strftime : datetime -> string.
(** [os.path.basename]. *)
Variable basename : string -> string.

Definition date_text (message : EmailMessage) : string :=
  match date message with
  | Some d => strftime d
  | None => "Unknown"
  end.

(** The [for message in results] loop of [display_results], on the rows of
    the table. *)
Fixpoint insert_rows (results : list EmailMessage) (rows : list Row) : list Row :=
  match results with
  | [] => rows
  | message :: results' =>
      let date_str := date_text message in
      insert_rows results'
        (rows ++ [{| date_item := date_str;
                     from_item := str (from_addr message);
                     subject_item := str (subject message);
                     user_role := message |}])
  end.

Definition display_results (results : list EmailMessage) (w : MainWindow)
    : MainWindow :=
  let w := set_table [] w in
  let w := set_table (insert_rows results (results_table w)) w in
  show_message (FoundResults (length results)) w.

Definition search (w : MainWindow) : MainWindow :=
  display_results
    (Gui.search lower (messages w) (search_input w) (search_type w)) w.

Definition update_progress (value : Z) (w : MainWindow) : MainWindow :=
  set_value value w.

Definition update_status (message : Gui.StatusText) (w : MainWindow) : MainWindow :=
  show_message (FromLoader message) w.

Definition loading_finished (messages_ : list EmailMessage) (w : MainWindow)
    : MainWindow :=
  let w := set_messages messages_ w in
  let w := set_visible false w in
  let w := show_message (LoadedMessages (length messages_)) w in
  search w.

Definition loading_error (error_msg : exn) (w : MainWindow) : MainWindow :=
  let w := set_visible false w in
  critical error_msg w.

(** The slot that each signal of the loader is connected to. *)
Definition deliver (w : MainWindow) (s : Gui.Signal) : MainWindow :=
  match s with
  | Gui.progress value => update_progress value w
  | Gui.status message => update_status message w
  | Gui.finished messages_ => loading_finished messages_ w
  | Gui.error error_msg => loading_error error_msg w
  end.

(** [load_mbox], followed by the delivery of every signal of the loader,
    with no other event of the window in between. *)
Definition load_mbox (fs : gmap string (list Byte.byte)) (file_path : string)
    (w : MainWindow) : MainWindow :=
  let w := set_visible true w in
  let w := set_value 0 w in
  let w := show_message Initializing w in
  foldl deliver w
        (Gui.run lower bytes_decode parsedate_to_datetime message_factory
                 fs file_path).

(** [select_file], on the name that the file dialog returns (empty when the
    dialog is cancelled). *)
Definition select_file (fs : gmap string (list Byte.byte)) (file_name : string)
    (w : MainWindow) : MainWindow :=
  if str_truthy file_name then
    let w := set_file_label (basename file_name) w in
    load_mbox fs file_name w
  else w.

(** [show_selected_message], on the rows of [selectedItems()];
    [item(row, 0)] is [None] outside the table, and [re.search] raises on a
    body that is not a [str]. *)
Definition show_selected_message (selected_rows : list nat) (w : MainWindow)
    : result MainWindow :=
  match selected_rows with
  | [] => Ok w
  | row :: _ =>
      match results_table w !! row with
      | None => Raise AttributeError
      | Some item =>
          let message := user_role item in
          match body message with
          | PHeader _ => Raise TypeError
          | PStr body_ =>
              let is_html := Regex.search tag_pattern body_ in
              let preview_text :=
                if is_html then
                  HtmlDocument (str (subject message)) (str (from_addr message))
                               (date_text message) body_
                else
                  PreformattedDocument (str (subject message))
                                       (str (from_addr message))
                                       (date_text message) body_ in
              Ok (set_html preview_text w)
          end
      end
  end.
End Methods.

End Window.

(** ** Counting the separators of a file *)

Module Separators.

(** The number of places of [s] where [sub] begins. *)
Fixpoint occurrences (sub s : list Byte.byte) : Z :=
  match s with
  | [] => 0
  | _ :: s' =>
      ((if Mailbox.startswith s sub then 1 else 0) + occurrences sub s')%Z
  end.

(** 1 when the file begins with [From ], as every mbox file with a message
    does. *)
Definition leading_from (f : list Byte.byte) : Z :=
  if Mailbox.startswith f (Mailbox.bytes_of "From ") then 1%Z else 0%Z.

End Separators.

(** ** The signals that end a run *)

Module Signals.

(** [finished] and [error] are the signals that end a load. *)
Definition is_terminal (s : Gui.Signal) : bool :=
  match s with
  | Gui.finished _ => true
  | Gui.error _ => true
  | Gui.progress _ => false
  | Gui.status _ => false
  end.

End Signals.

(** ** What the window and the console are expected to show *)

Module Shown.
Import Text Model.

(** The text has a tag: [<], a non-empty text without [>], and [>]. *)
Definition tagged (text : string) : Prop :=
  exists pre mid post,
    text = pre +:+ ("<" +:+ mid +:+ ">") +:+ post
    /\ mid <> "" /\ ~ substring_of ">" mid.

(** The items of a row show the message stored in it. *)
Definition row_shows (strftime : datetime -> string) (row : Window.Row) : Prop :=
  Window.date_item row = Window.date_text strftime (Window.user_role row)
  /\ Window.from_item row = str (from_addr (Window.user_role row))
  /\ Window.subject_item row = str (subject (Window.user_role row)).

(** A record with its timestamp taken away. *)
Definition set_date_none (m : EmailMessage) : EmailMessage :=
  {| message_id := message_id m; subject := subject m; from_addr := from_addr m;
     date := None; body := body m |}.

(** The row of the table of the command-line tool for a record. *)
Definition row_of (strftime : datetime -> string) (message : EmailMessage)
    : string * pyval * pyval :=
  (match date message with
   | Some d => strftime d
   | None => "Unknown"
   end, from_addr message, subject message).

(** The sender and the subject of the record are strings. *)
Definition str_fields (message : EmailMessage) : bool :=
  isinstance_str (from_addr message) && isinstance_str (subject message).

(** A call of [search] that [main] may make: the query is not empty and a
    field is enabled. *)
Definition proper_call (e : CliMain.ConsoleEvent) : Prop :=
  match e with
  | CliMain.SearchCall query search_subject search_body =>
      query <> "" /\ search_subject || search_body = true
  | _ => True
  end.

End Shown.

(** * Properties *)

(** ** Text *)

Module TextFacts.
Import Text.

Lemma prefix_app (q r : string) : String.prefix q (q +:+ r) = true.
Proof.
  induction q as [|c q IH]; simpl.
  - by destruct r.
  - destruct (ascii_dec c c) as [_|Hne]; [exact IH | by destruct Hne].
Qed.

Lemma prefix_inv (q s : string) :
  String.prefix q s = true -> exists r, s = q +:+ r.
Proof.
  revert s. induction q as [|c q IH]; intros s H.
  - by exists s.
  - destruct s as [|d s]; simpl in H; [done|].
    destruct (ascii_dec c d) as [->|_]; [|done].
    destruct (IH _ H) as [r ->]. by exists r.
Qed.

Lemma contains_of_prefix (q s : string) :
  String.prefix q s = true -> contains q s = true.
Proof. intros H. destruct s; cbn [contains]; by rewrite H. Qed.

Lemma contains_spec (q s : string) :
  contains q s = true <-> substring_of q s.
Proof.
  split.
  - induction s as [|c s IH]; intros H.
    + destruct (prefix_inv q EmptyString) as [r Hr].
      { simpl in H. by rewrite orb_false_r in H. }
      by exists EmptyString, r.
    + cbn [contains] in H. apply orb_true_iff in H as [H|H].
      * destruct (prefix_inv _ _ H) as [r Hr]. by exists EmptyString, r.
      * destruct (IH H) as (pre & post & ->). by exists (String c pre), post.
  - intros (pre & post & ->). induction pre as [|c pre IH].
    + apply contains_of_prefix. exact (prefix_app q post).
    + change (contains q (String c (pre +:+ q +:+ post)) = true).
      cbn [contains]. by rewrite IH, orb_true_r.
Qed.

Lemma contains_empty (s : string) : contains EmptyString s = true.
Proof. by destruct s. Qed.

Lemma append_cons (c : ascii) (s t : string) :
  String c s +:+ t = String c (s +:+ t).
Proof. reflexivity. Qed.

Lemma append_empty_l (s : string) : "" +:+ s = s.
Proof. reflexivity. Qed.

Lemma append_assoc (s t u : string) : (s +:+ t) +:+ u = s +:+ t +:+ u.
Proof. induction s as [|c s IH]; [done|]. by rewrite !append_cons, IH. Qed.

Lemma append_empty_r (s : string) : s +:+ "" = s.
Proof. induction s as [|c s IH]; [done|]. by rewrite append_cons, IH. Qed.

Lemma as_str_str (v : pyval) : as_str v = str v.
Proof. by destruct v. Qed.

Lemma ascii_lower_quarterly :
  contains (ascii_lower "REPORT") (ascii_lower "Quarterly Report") = true
  /\ contains (ascii_lower "report") (ascii_lower "Quarterly Report") = true
  /\ contains (ascii_lower "repot") (ascii_lower "Quarterly Report") = false.
Proof. by vm_compute. Qed.

End TextFacts.

(** ** Search *)

Module SearchFacts.
Import Text Model Spec TextFacts.

Section Loops.
Variable lower : string -> string.

Lemma cli_search_loop_filter messages query ss sb results :
  Cli.search_loop lower messages (lower query) ss sb results
  = results ++ List.filter (record_matches lower query ss sb) messages.
Proof.
  revert results. induction messages as [|m ms IH]; intros results.
  - by rewrite app_nil_r.
  - cbn [Cli.search_loop List.filter]. rewrite IH, !as_str_str.
    unfold record_matches.
    destruct (ss && contains _ (lower (str (subject m)))),
             (sb && contains _ (lower (str (body m)))); simpl;
      by rewrite <- ?app_assoc.
Qed.

Lemma gui_search_loop_filter messages query search_type results :
  Gui.search_loop lower messages (lower query) search_type results
  = results ++ List.filter
      (record_matches lower query (subject_enabled search_type)
                      (body_enabled search_type)) messages.
Proof.
  revert results. induction messages as [|m ms IH]; intros results.
  - by rewrite app_nil_r.
  - cbn [Gui.search_loop List.filter]. rewrite IH, !as_str_str.
    unfold record_matches. fold (subject_enabled search_type).
    fold (body_enabled search_type).
    destruct (subject_enabled search_type && contains _ (lower (str (subject m)))),
             (body_enabled search_type && contains _ (lower (str (body m)))); simpl;
      by rewrite <- ?app_assoc.
Qed.

Lemma cli_search_filter messages query ss sb :
  Cli.search lower messages query ss sb
  = List.filter (record_matches lower query ss sb) messages.
Proof. unfold Cli.search. by rewrite cli_search_loop_filter. Qed.

Lemma gui_search_filter messages query search_type :
  Gui.search lower messages query search_type
  = List.filter (record_matches lower query (subject_enabled search_type)
                                (body_enabled search_type)) messages.
Proof. unfold Gui.search. by rewrite gui_search_loop_filter. Qed.

Lemma record_matches_iff query ss sb m :
  record_matches lower query ss sb m = true
  <-> record_matches_prop lower query ss sb m.
Proof.
  unfold record_matches, record_matches_prop.
  rewrite orb_true_iff, !andb_true_iff, !contains_spec. tauto.
Qed.

Lemma record_matches_mono query ss sb ss' sb' m :
  (ss = true -> ss' = true) -> (sb = true -> sb' = true) ->
  record_matches lower query ss sb m = true ->
  record_matches lower query ss' sb' m = true.
Proof.
  unfold record_matches. intros Hs Hb.
  rewrite !orb_true_iff, !andb_true_iff. tauto.
Qed.
End Loops.

Lemma filter_sublist_of {A} (f : A -> bool) (l : list A) :
  List.filter f l `sublist_of` l.
Proof.
  induction l as [|x l IH]; simpl; [constructor|].
  destruct (f x); by constructor.
Qed.

Lemma filter_sublist_mono {A} (f g : A -> bool) (l : list A) :
  (forall x, f x = true -> g x = true) ->
  List.filter f l `sublist_of` List.filter g l.
Proof.
  intros Hfg. induction l as [|x l IH]; simpl; [constructor|].
  destruct (f x) eqn:Hf.
  - rewrite (Hfg x Hf). by constructor.
  - destruct (g x); [by constructor | done].
Qed.

Lemma filter_all {A} (f : A -> bool) (l : list A) :
  (forall x, f x = true) -> List.filter f l = l.
Proof.
  intros Hf. induction l as [|x l IH]; simpl; [done|]. by rewrite Hf, IH.
Qed.

End SearchFacts.

(** ** Building the records *)

Module RecordFacts.
Import Text Exn Model Email LoaderSpec TextFacts.

Section Records.
Variable lower : string -> string.
Variable bytes_decode : list Byte.byte -> result string.
Variable parsedate_to_datetime : pyval -> result datetime.

Lemma cli_parse_date message :
  Cli.parse_date lower parsedate_to_datetime message
  = Ok (timestamp lower parsedate_to_datetime message).
Proof.
  unfold Cli.parse_date, timestamp. destruct (truthy _); [|done].
  by destruct (parsedate_to_datetime _).
Qed.

Lemma gui_parse_date message :
  Gui.parse_date lower parsedate_to_datetime message
  = Ok (timestamp lower parsedate_to_datetime message).
Proof.
  unfold Gui.parse_date, timestamp. destruct (truthy _); [|done].
  by destruct (parsedate_to_datetime _).
Qed.

Lemma get_missing name message failobj :
  has_header lower name message = false ->
  get lower message name failobj = failobj.
Proof.
  unfold has_header, get. induction (headers message) as [|[k v] hs IH]; simpl.
  - done.
  - intros H. apply orb_false_iff in H as [-> H]. by apply IH.
Qed.


Lemma plain_is_not_html part :
  has_type "text/plain" part = true -> has_type "text/html" part = false.
Proof. unfold has_type. intros H. apply String.eqb_eq in H. by rewrite H. Qed.

Lemma cli_body_loop parts body_ :
  Cli.body_loop bytes_decode parts body_
  = Ok (body_ +:+ join (map (decoded_text bytes_decode)
                            (List.filter (has_type "text/plain") parts))).
Proof.
  revert body_. induction parts as [|part parts IH]; intros body_.
  - simpl. by rewrite append_empty_r.
  - cbn [Cli.body_loop List.filter]. fold (has_type "text/plain" part).
    destruct (has_type "text/plain" part); [|apply IH].
    cbn [map join foldr]. unfold decoded_text at 1.
    destruct (decode_payload bytes_decode part) as [text|e]; simpl; rewrite IH.
    + by rewrite append_assoc.
    + done.
Qed.

Lemma gui_parts_loop parts body_ html_body :
  Gui.parts_loop bytes_decode parts body_ html_body
  = Ok (body_ +:+ join (map (decoded_text bytes_decode)
                            (List.filter (has_type "text/plain") parts)),
        html_body +:+ join (map (decoded_text bytes_decode)
                                (List.filter (has_type "text/html") parts))).
Proof.
  revert body_ html_body.
  induction parts as [|part parts IH]; intros body_ html_body.
  - simpl. by rewrite !append_empty_r.
  - cbn [Gui.parts_loop List.filter]. fold (has_type "text/plain" part).
    fold (has_type "text/html" part).
    destruct (has_type "text/plain" part) eqn:Hplain.
    + rewrite (plain_is_not_html _ Hplain).
      cbn [map join foldr]. unfold decoded_text at 1.
      destruct (decode_payload bytes_decode part) as [text|e]; simpl; rewrite IH.
      * by rewrite append_assoc.
      * done.
    + destruct (has_type "text/html" part); [|apply IH].
      cbn [map join foldr]. unfold decoded_text at 2.
      destruct (decode_payload bytes_decode part) as [text|e]; simpl; rewrite IH.
      * by rewrite append_assoc.
      * done.
Qed.

Lemma cli_get_message_body message :
  Cli._get_message_body bytes_decode message
  = Ok (if is_multipart message then plain_text bytes_decode message
        else single_text bytes_decode message).
Proof.
  unfold Cli._get_message_body. destruct (is_multipart message).
  - by rewrite cli_body_loop.
  - unfold single_text. by destruct (decode_payload bytes_decode message).
Qed.

Lemma gui_get_bodies_multipart message :
  is_multipart message = true ->
  Gui.get_bodies bytes_decode message
  = Ok (plain_text bytes_decode message, html_text bytes_decode message).
Proof.
  intros Hm. unfold Gui.get_bodies. rewrite Hm. by rewrite gui_parts_loop.
Qed.

Lemma gui_make_email message :
  Gui.make_email lower bytes_decode parsedate_to_datetime message
  = Ok (gui_record lower bytes_decode parsedate_to_datetime message).
Proof.
  unfold Gui.make_email, gui_record, headers_record.
  rewrite gui_parse_date. simpl.
  destruct (is_multipart message) eqn:Hm.
  - by rewrite (gui_get_bodies_multipart _ Hm).
  - unfold Gui.get_bodies, single_text. rewrite Hm.
    destruct (String.eqb (get_content_type message) "text/html");
      destruct (decode_payload bytes_decode message) as [text|e]; simpl; try done.
    by destruct text.
Qed.

Lemma cli_load_loop mbox messages :
  Cli.load_loop lower bytes_decode parsedate_to_datetime mbox messages
  = Ok (messages ++ map (cli_record lower bytes_decode parsedate_to_datetime) mbox).
Proof.
  revert messages. induction mbox as [|message mbox IH]; intros messages.
  - simpl. by rewrite app_nil_r.
  - cbn [Cli.load_loop]. rewrite cli_parse_date, cli_get_message_body. simpl.
    rewrite IH. by rewrite <- app_assoc.
Qed.
End Records.

End RecordFacts.

(** ** The signals of a run *)

Module RunFacts.
Import Text Exn Model Email LoaderSpec TextFacts RecordFacts.

#[local] Opaque Gui.chunk_size.

Lemma scan_loop_signals chunks file_size message_count bytes_processed :
  file_size <> 0%Z ->
  Gui.scan_loop chunks file_size message_count bytes_processed
  = (map Gui.progress (scan_progress chunks file_size bytes_processed),
     Ok (message_count + scan_count chunks)%Z).
Proof.
  intros Hsize. revert message_count bytes_processed.
  induction chunks as [|chunk chunks IH]; intros message_count bytes_processed.
  - simpl. by rewrite Z.add_0_r.
  - cbn [Gui.scan_loop scan_progress scan_count foldr map].
    unfold Gui.true_div. apply Z.eqb_neq in Hsize. rewrite Hsize.
    cbn. rewrite IH. cbn. unfold scaled, Gui.times.
    do 2 f_equal. symmetry. apply Z.add_assoc.
Qed.

Lemma read_chunks_nil rounds chunk_size : Gui.read_chunks rounds chunk_size [] = [].
Proof. destruct rounds; simpl; [done|]. by rewrite take_nil. Qed.

Lemma scan_loop_file (f : list Byte.byte) :
  Gui.scan_loop (Gui.read_chunks (length f) Gui.chunk_size f) (Mailbox.len f) 0 0
  = (map Gui.progress
         (scan_progress (Gui.read_chunks (length f) Gui.chunk_size f) (Mailbox.len f) 0),
     Ok (prescan_count f)).
Proof.
  destruct f as [|c f].
  - by rewrite read_chunks_nil.
  - rewrite scan_loop_signals; [done|]. unfold Mailbox.len. simpl. lia.
Qed.

Section Loader.
Variable lower : string -> string.
Variable bytes_decode : list Byte.byte -> result string.
Variable parsedate_to_datetime : pyval -> result datetime.
Variable message_factory : list Byte.byte -> Message.

Local Abbreviation gui_record := (gui_record lower bytes_decode parsedate_to_datetime).
Local Abbreviation load_loop := (Gui.load_loop lower bytes_decode parsedate_to_datetime).
Local Abbreviation run := (Gui.run lower bytes_decode parsedate_to_datetime message_factory).

Lemma load_loop_signals mbox message_count messages current_message :
  message_count <> 0%Z ->
  load_loop mbox message_count messages current_message
  = (load_signals (length mbox) message_count current_message,
     Ok (messages ++ map gui_record mbox)).
Proof.
  intros Hcount. revert messages current_message.
  induction mbox as [|message mbox IH]; intros messages current_message.
  - simpl. by rewrite app_nil_r.
  - cbn [Gui.load_loop]. rewrite gui_make_email.
    unfold Gui.true_div. apply Z.eqb_neq in Hcount. rewrite Hcount.
    cbn. apply Z.eqb_neq in Hcount. rewrite IH by done. cbn.
    unfold load_progress, scaled, Gui.times. by rewrite <- app_assoc.
Qed.

Lemma load_loop_zero message mbox messages current_message :
  load_loop (message :: mbox) 0 messages current_message
  = ([], Raise ZeroDivisionError).
Proof. cbn [Gui.load_loop]. by rewrite gui_make_email. Qed.

Lemma run_missing (fs : gmap string (list Byte.byte)) mbox_path :
  fs !! mbox_path = None ->
  run fs mbox_path
  = [Gui.status Gui.ScanningFile; Gui.error (FileNotFoundError mbox_path)].
Proof. intros H. unfold Gui.run, Gui.run_try. by rewrite H. Qed.

Lemma run_loaded (fs : gmap string (list Byte.byte)) mbox_path f :
  fs !! mbox_path = Some f ->
  prescan_count f <> 0%Z ->
  run fs mbox_path
  = Gui.status Gui.ScanningFile
    :: map Gui.progress
         (scan_progress (Gui.read_chunks (length f) Gui.chunk_size f) (Mailbox.len f) 0)
    ++ Gui.status (Gui.FoundMessages (prescan_count f))
    :: load_signals (length (Mailbox.mbox message_factory f)) (prescan_count f) 0
    ++ [Gui.finished (map gui_record (Mailbox.mbox message_factory f))].
Proof.
  intros Hf Hcount. unfold Gui.run, Gui.run_try. rewrite Hf. cbn.
  rewrite scan_loop_file. cbn. rewrite load_loop_signals by done. cbn.
  by rewrite <- ?app_assoc.
Qed.

Lemma run_empty_mbox (fs : gmap string (list Byte.byte)) mbox_path f :
  fs !! mbox_path = Some f ->
  Mailbox.mbox message_factory f = [] ->
  run fs mbox_path
  = Gui.status Gui.ScanningFile
    :: map Gui.progress
         (scan_progress (Gui.read_chunks (length f) Gui.chunk_size f) (Mailbox.len f) 0)
    ++ [Gui.status (Gui.FoundMessages (prescan_count f)); Gui.finished []].
Proof.
  intros Hf Hmbox. unfold Gui.run, Gui.run_try. rewrite Hf. cbn.
  rewrite scan_loop_file. cbn. rewrite Hmbox. cbn.
  by rewrite <- ?app_assoc.
Qed.

Lemma run_zero_count (fs : gmap string (list Byte.byte)) mbox_path f message mbox :
  fs !! mbox_path = Some f ->
  prescan_count f = 0%Z ->
  Mailbox.mbox message_factory f = message :: mbox ->
  run fs mbox_path
  = Gui.status Gui.ScanningFile
    :: map Gui.progress
         (scan_progress (Gui.read_chunks (length f) Gui.chunk_size f) (Mailbox.len f) 0)
    ++ [Gui.status (Gui.FoundMessages 0); Gui.error ZeroDivisionError].
Proof.
  intros Hf Hcount Hmbox. unfold Gui.run, Gui.run_try. rewrite Hf. cbn.
  rewrite scan_loop_file. cbn. rewrite Hmbox, Hcount, load_loop_zero. cbn.
  by rewrite <- ?app_assoc.
Qed.
End Loader.

End RunFacts.

(** ** Progress arithmetic and the chunks of the first pass *)

Module ProgressFacts.
Import LoaderSpec.

Lemma chunk_size_pos : (0 < Gui.chunk_size)%nat.
Proof. unfold Gui.chunk_size. apply Nat.mul_pos_pos; lia. Qed.

#[local] Opaque Gui.chunk_size.

(** The rounds given to [read_chunks] are enough: no byte of the file is
    left unread. *)
Lemma read_chunks_concat rounds chunk_size (f : list Byte.byte) :
  (0 < chunk_size)%nat -> (length f <= rounds)%nat ->
  concat (Gui.read_chunks rounds chunk_size f) = f.
Proof.
  intros Hsize. revert f. induction rounds as [|rounds IH]; intros f Hlen.
  - destruct f; [done | simpl in Hlen; lia].
  - cbn [Gui.read_chunks]. destruct (take chunk_size f) as [|c chunk] eqn:Htake.
    + apply take_nil_inv in Htake as [?| ->]; [lia | done].
    + cbn [concat]. rewrite IH.
      * rewrite <- Htake. apply take_drop.
      * rewrite length_drop. destruct f; [by rewrite take_nil in Htake|].
        simpl in Hlen. simpl. lia.
Qed.

Lemma scaled_div (a b : Z) :
  (0 <= a)%Z -> (0 < b)%Z -> scaled a b = ((a * 50) `div` b)%Z.
Proof.
  intros Ha Hb. destruct b as [|p|p]; [lia| |lia].
  unfold scaled, Gui.int, Gui.times, QArith_base.Qdiv, QArith_base.Qinv,
    QArith_base.Qmult, QArith_base.inject_Z.
  cbn [QArith_base.Qnum QArith_base.Qden].
  rewrite Pos.mul_1_l, Pos.mul_1_r, Z.mul_1_r.
  apply Z.quot_div_nonneg; lia.
Qed.

Lemma scaled_mono (a a' b : Z) :
  (0 <= a <= a')%Z -> (0 < b)%Z -> (scaled a b <= scaled a' b)%Z.
Proof.
  intros Ha Hb. rewrite !scaled_div by lia. apply Z.div_le_mono; lia.
Qed.

Lemma scaled_bounds (a b : Z) :
  (0 <= a <= b)%Z -> (0 < b)%Z -> (0 <= scaled a b <= 50)%Z.
Proof.
  intros Ha Hb. rewrite scaled_div by lia. split.
  - apply Z.div_pos; lia.
  - apply Z.div_le_upper_bound; lia.
Qed.

Lemma len_nonneg {A} (l : list A) : (0 <= Mailbox.len l)%Z.
Proof. unfold Mailbox.len. lia. Qed.

Lemma len_app {A} (l k : list A) :
  Mailbox.len (l ++ k) = (Mailbox.len l + Mailbox.len k)%Z.
Proof. unfold Mailbox.len. rewrite length_app. lia. Qed.

(** The progress values of the first pass do not decrease and stay between
    0 and 50. *)
Lemma scan_progress_sorted chunks file_size bytes_processed :
  (0 <= bytes_processed)%Z -> (0 < file_size)%Z ->
  (bytes_processed + Mailbox.len (concat chunks) <= file_size)%Z ->
  StronglySorted Z.le (scan_progress chunks file_size bytes_processed)
  /\ Forall (fun v => scaled bytes_processed file_size <= v <= 50)%Z
            (scan_progress chunks file_size bytes_processed).
Proof.
  intros Hbp Hsize. revert bytes_processed Hbp.
  induction chunks as [|chunk chunks IH]; intros bytes_processed Hbp Hsum.
  - split; constructor.
  - cbn [scan_progress]. cbn [concat] in Hsum. rewrite len_app in Hsum.
    pose proof (len_nonneg chunk) as Hchunk.
    pose proof (len_nonneg (concat chunks)) as Hrest.
    destruct (IH (bytes_processed + Mailbox.len chunk)%Z) as [Hsorted Hall];
      [lia | lia |].
    assert (Hstep : (scaled bytes_processed file_size
                     <= scaled (bytes_processed + Mailbox.len chunk) file_size)%Z)
      by (apply scaled_mono; lia).
    split.
    + constructor; [exact Hsorted|].
      eapply Forall_impl; [exact Hall|]. intros v Hv. simpl in Hv. lia.
    + constructor.
      * split; [exact Hstep|]. apply scaled_bounds; lia.
      * eapply Forall_impl; [exact Hall|]. intros v Hv. simpl in Hv. lia.
Qed.

Lemma scan_progress_file (f : list Byte.byte) :
  StronglySorted Z.le
    (scan_progress (Gui.read_chunks (length f) Gui.chunk_size f) (Mailbox.len f) 0)
  /\ Forall (fun v => 0 <= v <= 50)%Z
       (scan_progress (Gui.read_chunks (length f) Gui.chunk_size f) (Mailbox.len f) 0).
Proof.
  destruct f as [|c f].
  - rewrite RunFacts.read_chunks_nil. split; constructor.
  - set (file := c :: f).
    assert (Hsize : (0 < Mailbox.len file)%Z) by (unfold Mailbox.len; simpl; lia).
    destruct (scan_progress_sorted (Gui.read_chunks (length file) Gui.chunk_size file)
                (Mailbox.len file) 0) as [Hsorted Hall]; [lia | done | |].
    + rewrite read_chunks_concat; [lia | apply chunk_size_pos | lia].
    + split; [exact Hsorted|]. eapply Forall_impl; [exact Hall|].
      intros v Hv. simpl in Hv.
      pose proof (scaled_bounds 0 (Mailbox.len file)). lia.
Qed.

(** The progress values of the second pass. *)
Lemma load_progress_sorted n message_count current_message :
  (0 < message_count)%Z -> (0 <= current_message)%Z ->
  StronglySorted Z.le (progress_values (load_signals n message_count current_message))
  /\ Forall (fun v => 50 + scaled current_message message_count <= v)%Z
            (progress_values (load_signals n message_count current_message)).
Proof.
  intros Hcount. revert current_message.
  induction n as [|n IH]; intros current_message Hcur.
  - split; constructor.
  - change (progress_values (load_signals (S n) message_count current_message))
      with (load_progress message_count (current_message + 1)
            :: progress_values (load_signals n message_count (current_message + 1))).
    destruct (IH (current_message + 1)%Z) as [Hsorted Hall]; [lia|].
    assert (Hstep : (scaled current_message message_count
                     <= scaled (current_message + 1) message_count)%Z)
      by (apply scaled_mono; lia).
    unfold load_progress. split.
    + constructor; [exact Hsorted|]. exact Hall.
    + constructor; [lia|].
      eapply Forall_impl; [exact Hall|]. intros v Hv. simpl in Hv. lia.
Qed.

(** With a right count, the second pass would stay between 50 and 100. *)
Lemma load_progress_bounds message_count current_message :
  (0 < message_count)%Z -> (0 <= current_message <= message_count)%Z ->
  (50 <= load_progress message_count current_message <= 100)%Z.
Proof.
  intros Hcount Hcur. unfold load_progress.
  pose proof (scaled_bounds current_message message_count). lia.
Qed.

Lemma count_from_nonneg sub skip chunk : (0 <= Gui.count_from sub skip chunk)%Z.
Proof.
  revert skip. induction chunk as [|c chunk IH]; intros skip; [simpl; lia|].
  cbn [Gui.count_from]. destruct skip as [|skip]; [|apply IH].
  destruct (Mailbox.startswith _ _).
  - pose proof (IH (length sub - 1)%nat). lia.
  - apply IH.
Qed.

Lemma scan_count_nonneg chunks : (0 <= scan_count chunks)%Z.
Proof.
  induction chunks as [|chunk chunks IH]; [simpl; lia|].
  cbn [scan_count foldr]. fold (scan_count chunks).
  pose proof (count_from_nonneg (Mailbox.newline :: Mailbox.bytes_of "From ") 0 chunk).
  unfold Gui.count. lia.
Qed.

Lemma prescan_count_nonneg f : (0 <= prescan_count f)%Z.
Proof. apply scan_count_nonneg. Qed.

End ProgressFacts.

(** ** The table of contents *)

Module MailboxFacts.
Import Email LoaderSpec.

Lemma toc_loop_lengths lines line_pos starts stops last_was_empty :
  (length stops <= length starts <= S (length stops))%nat ->
  let n := length (List.filter (fun line => Mailbox.startswith line (Mailbox.bytes_of "From "))
                               lines) in
  (length (Mailbox.toc_loop lines line_pos starts stops last_was_empty).1
   = length starts + n)%nat
  /\ (length (Mailbox.toc_loop lines line_pos starts stops last_was_empty).1
      <= length (Mailbox.toc_loop lines line_pos starts stops last_was_empty).2)%nat.
Proof.
  revert line_pos starts stops last_was_empty.
  induction lines as [|line lines IH]; intros line_pos starts stops last_was_empty Hinv.
  - cbn [Mailbox.toc_loop List.filter length].
    destruct last_was_empty; cbn [fst snd]; rewrite length_app; simpl; lia.
  - cbn [Mailbox.toc_loop List.filter].
    destruct (Mailbox.startswith line (Mailbox.bytes_of "From ")).
    + cbn [length]. cbn zeta.
      match goal with
      | |- context [Mailbox.toc_loop lines ?p ?st ?sp false] =>
          destruct (IH p st sp false) as [H1 H2]
      end.
      { rewrite length_app. simpl.
        destruct (Nat.ltb_spec (length stops) (length starts));
          [destruct last_was_empty; rewrite length_app; simpl; lia | lia]. }
      split; [rewrite H1, length_app; simpl; lia | exact H2].
    + destruct (Mailbox.bytes_eqb line Mailbox.linesep);
        destruct (IH (line_pos + Mailbox.len line)%Z starts stops true Hinv) as [H1 H2];
        destruct (IH (line_pos + Mailbox.len line)%Z starts stops false Hinv) as [H3 H4];
        done.
Qed.

(** One entry of the table of contents for each line that begins with
    [From ]. *)
Lemma generate_toc_length (f : list Byte.byte) :
  length (Mailbox._generate_toc f) = Mailbox.from_lines f.
Proof.
  unfold Mailbox._generate_toc, Mailbox.from_lines.
  destruct (toc_loop_lengths (Mailbox.readlines f) 0 [] [] false) as [H1 H2];
    [simpl; lia|].
  destruct (Mailbox.toc_loop _ _ _ _ _) as [starts stops]. simpl in *.
  rewrite length_zip. lia.
Qed.

Lemma readlines_nonempty (f : list Byte.byte) :
  Forall (fun line => (0 < Mailbox.len line)%Z) (Mailbox.readlines f).
Proof.
  induction f as [|c f IH]; [constructor|].
  cbn [Mailbox.readlines]. destruct (Byte.eqb c Mailbox.newline).
  - constructor; [unfold Mailbox.len; simpl; lia | exact IH].
  - destruct (Mailbox.readlines f) as [|line lines].
    + constructor; [unfold Mailbox.len; simpl; lia | constructor].
    + inversion IH as [|? ? Hline Hlines]; subst.
      constructor; [unfold Mailbox.len in *; simpl; lia | exact Hlines].
Qed.

Lemma toc_loop_starts_increasing lines line_pos starts stops last_was_empty :
  Forall (fun line => (0 < Mailbox.len line)%Z) lines ->
  StronglySorted Z.lt starts ->
  Forall (fun start => (start < line_pos)%Z) starts ->
  StronglySorted Z.lt (Mailbox.toc_loop lines line_pos starts stops last_was_empty).1.
Proof.
  intros Hlines. revert line_pos starts stops last_was_empty.
  induction Hlines as [|line lines Hline Hlines IH];
    intros line_pos starts stops last_was_empty Hsorted Hbelow.
  - cbn [Mailbox.toc_loop]. by destruct last_was_empty.
  - cbn [Mailbox.toc_loop].
    assert (Hnext : Forall (fun start => (start < line_pos + Mailbox.len line)%Z) starts).
    { eapply Forall_impl; [exact Hbelow|]. intros start Hstart. simpl in Hstart. lia. }
    destruct (Mailbox.startswith line (Mailbox.bytes_of "From ")).
    + cbn zeta. apply IH.
      * apply StronglySorted_app. split; [|split; [done | repeat constructor]].
        intros x1 x2 Hx1 Hx2. apply list_elem_of_singleton in Hx2 as ->.
        rewrite Forall_forall in Hbelow. by apply Hbelow.
      * apply Forall_app. split; [exact Hnext|]. constructor; [lia | constructor].
    + destruct (Mailbox.bytes_eqb line Mailbox.linesep); by apply IH.
Qed.

(** The messages of the table of contents follow each other in the file. *)
Lemma generate_toc_starts_increasing (f : list Byte.byte) :
  StronglySorted Z.lt (Mailbox._generate_toc f).*1.
Proof.
  unfold Mailbox._generate_toc.
  destruct (toc_loop_lengths (Mailbox.readlines f) 0 [] [] false) as [_ Hlen];
    [simpl; lia|].
  pose proof (toc_loop_starts_increasing (Mailbox.readlines f) 0 [] [] false
                (readlines_nonempty f)) as Hsorted.
  destruct (Mailbox.toc_loop _ _ _ _ _) as [starts stops]. simpl in *.
  rewrite fst_zip by done. apply Hsorted; constructor.
Qed.

Lemma mbox_length message_factory (f : list Byte.byte) :
  length (Mailbox.mbox message_factory f) = Mailbox.from_lines f.
Proof. unfold Mailbox.mbox. by rewrite length_map, generate_toc_length. Qed.

End MailboxFacts.

(** ** What a run has emitted *)

Module SignalFacts.
Import Text Exn Model Email LoaderSpec.

Lemma progress_values_app out1 out2 :
  progress_values (out1 ++ out2) = progress_values out1 ++ progress_values out2.
Proof. apply omap_app. Qed.

Lemma finished_batches_app out1 out2 :
  finished_batches (out1 ++ out2) = finished_batches out1 ++ finished_batches out2.
Proof. apply omap_app. Qed.

Lemma announced_counts_app out1 out2 :
  announced_counts (out1 ++ out2) = announced_counts out1 ++ announced_counts out2.
Proof. apply omap_app. Qed.

Lemma progress_values_status text out :
  progress_values (Gui.status text :: out) = progress_values out.
Proof. reflexivity. Qed.

Lemma finished_batches_status text out :
  finished_batches (Gui.status text :: out) = finished_batches out.
Proof. reflexivity. Qed.

Lemma progress_values_scan values :
  progress_values (map Gui.progress values) = values.
Proof.
  induction values as [|v values IH]; [done|].
  change (v :: progress_values (map Gui.progress values) = v :: values).
  by rewrite IH.
Qed.

Lemma finished_batches_scan values :
  finished_batches (map Gui.progress values) = [].
Proof. by induction values. Qed.

Lemma announced_counts_scan values :
  announced_counts (map Gui.progress values) = [].
Proof. by induction values. Qed.

Lemma finished_batches_load n message_count current_message :
  finished_batches (load_signals n message_count current_message) = [].
Proof. revert current_message. induction n as [|n IH]; intros c; [done|]. apply IH. Qed.

Lemma announced_counts_load n message_count current_message :
  announced_counts (load_signals n message_count current_message) = [].
Proof. revert current_message. induction n as [|n IH]; intros c; [done|]. apply IH. Qed.

End SignalFacts.

(** ** What a run that loads a file has emitted *)

Module RunResults.
Import Text Exn Model Email LoaderSpec RunFacts SignalFacts.

#[local] Opaque Gui.chunk_size.

Section Loader.
Variable lower : string -> string.
Variable bytes_decode : list Byte.byte -> result string.
Variable parsedate_to_datetime : pyval -> result datetime.
Variable message_factory : list Byte.byte -> Message.

Local Abbreviation gui_record := (gui_record lower bytes_decode parsedate_to_datetime).
Local Abbreviation run := (Gui.run lower bytes_decode parsedate_to_datetime message_factory).

Lemma run_finished (fs : gmap string (list Byte.byte)) mbox_path f :
  fs !! mbox_path = Some f ->
  prescan_count f <> 0%Z ->
  finished_batches (run fs mbox_path)
  = [map gui_record (Mailbox.mbox message_factory f)].
Proof.
  intros Hf Hcount. rewrite (run_loaded _ _ _ _ _ _ _ Hf Hcount).
  rewrite finished_batches_status, finished_batches_app, finished_batches_status,
    finished_batches_app, finished_batches_scan, finished_batches_load.
  reflexivity.
Qed.

Lemma run_announced (fs : gmap string (list Byte.byte)) mbox_path f :
  fs !! mbox_path = Some f ->
  prescan_count f <> 0%Z ->
  announced_counts (run fs mbox_path) = [prescan_count f].
Proof.
  intros Hf Hcount. rewrite (run_loaded _ _ _ _ _ _ _ Hf Hcount).
  change (announced_counts (Gui.status Gui.ScanningFile :: ?l))
    with (announced_counts l).
  rewrite announced_counts_app, announced_counts_scan.
  change (announced_counts (Gui.status (Gui.FoundMessages ?n) :: ?l))
    with (n :: announced_counts l).
  by rewrite announced_counts_app, announced_counts_load.
Qed.

Lemma run_progress (fs : gmap string (list Byte.byte)) mbox_path f :
  fs !! mbox_path = Some f ->
  prescan_count f <> 0%Z ->
  progress_values (run fs mbox_path)
  = scan_progress (Gui.read_chunks (length f) Gui.chunk_size f) (Mailbox.len f) 0
    ++ progress_values (load_signals (Mailbox.from_lines f) (prescan_count f) 0).
Proof.
  intros Hf Hcount. rewrite (run_loaded _ _ _ _ _ _ _ Hf Hcount).
  rewrite MailboxFacts.mbox_length.
  rewrite progress_values_status, progress_values_app, progress_values_status,
    progress_values_app, progress_values_scan.
  change (progress_values [Gui.finished _]) with (@nil Z).
  by rewrite app_nil_r.
Qed.
(** The command-line loader returns one record for each line of the file
    that begins with [From ], in the order of the table of contents. *)
Lemma cli_load_mbox_records print_fails (fs : gmap string (list Byte.byte))
    mbox_path f :
  fs !! mbox_path = Some f ->
  Cli.load_mbox lower bytes_decode parsedate_to_datetime message_factory print_fails
                fs mbox_path
  = Cli.Loaded (map (cli_record lower bytes_decode parsedate_to_datetime)
                    (Mailbox.mbox message_factory f))
  /\ length (Mailbox.mbox message_factory f) = Mailbox.from_lines f.
Proof.
  intros Hf. unfold Cli.load_mbox.
  by rewrite Hf, RecordFacts.cli_load_loop, MailboxFacts.mbox_length.
Qed.


(** Whatever the file, the progress values of a run do not decrease. *)
Lemma run_progress_non_decreasing (fs : gmap string (list Byte.byte)) mbox_path :
  StronglySorted Z.le (progress_values (run fs mbox_path)).
Proof.
  destruct (fs !! mbox_path) as [f|] eqn:Hf.
  - destruct (ProgressFacts.scan_progress_file f) as [Hsorted Hall].
    destruct (decide (prescan_count f = 0%Z)) as [Hzero|Hcount].
    + destruct (Mailbox.mbox message_factory f) as [|m ms] eqn:Hmbox.
      * rewrite (run_empty_mbox _ _ _ _ _ _ _ Hf Hmbox).
        rewrite progress_values_status, progress_values_app, progress_values_scan.
        change (progress_values [_; _]) with (@nil Z). by rewrite app_nil_r.
      * rewrite (run_zero_count _ _ _ _ _ _ _ _ _ Hf Hzero Hmbox).
        rewrite progress_values_status, progress_values_app, progress_values_scan.
        change (progress_values [_; _]) with (@nil Z). by rewrite app_nil_r.
    + rewrite (run_progress _ _ _ Hf Hcount).
      pose proof (ProgressFacts.prescan_count_nonneg f) as Hnonneg.
      destruct (ProgressFacts.load_progress_sorted (Mailbox.from_lines f)
                  (prescan_count f) 0) as [Hsorted' Hall']; [lia | lia |].
      apply StronglySorted_app. split; [|by split].
      intros v1 v2 Hv1 Hv2.
      rewrite Forall_forall in Hall, Hall'.
      specialize (Hall v1 Hv1). specialize (Hall' v2 Hv2). simpl in Hall, Hall'.
      pose proof (ProgressFacts.scaled_bounds 0 (prescan_count f)). lia.
  - rewrite (run_missing _ _ _ _ _ _ Hf). constructor.
Qed.
End Loader.

End RunResults.

(** * The claims of the specification *)

Import Text Exn Model Email Spec LoaderSpec.

(** C1: for every record sequence, query and pair of flags, [search] (of the
    command-line tool and of the main window alike) returns exactly the
    records for which an enabled field -- the subject when [match_subject],
    the body when [match_body] -- has a lowercased text that contains the
    lowercased query as a substring; every other record is left out. *)
Theorem search_returns_exactly_the_matching_records
    (lower : string -> string) (messages : list EmailMessage) (query : string)
    (match_subject match_body : bool) :
  Cli.search lower messages query match_subject match_body
  = List.filter (record_matches lower query match_subject match_body) messages
  /\ (forall search_type,
       Gui.search lower messages query search_type
       = List.filter (record_matches lower query (subject_enabled search_type)
                                     (body_enabled search_type)) messages)
  /\ (forall message,
       record_matches lower query match_subject match_body message = true
       <-> (match_subject = true
            /\ substring_of (lower query) (lower (str (subject message))))
           \/ (match_body = true
               /\ substring_of (lower query) (lower (str (body message))))).
Proof.
  split; [apply SearchFacts.cli_search_filter|].
  split; [intros; apply SearchFacts.gui_search_filter|].
  intros message. apply SearchFacts.record_matches_iff.
Qed.

(** C4: the result of a search is a subsequence of the input in the input's
    order: nothing is reordered, ranked or weighted. *)
Theorem search_preserves_input_order
    (lower : string -> string) (messages : list EmailMessage) (query : string)
    (match_subject match_body : bool) (search_type : string) :
  Cli.search lower messages query match_subject match_body `sublist_of` messages
  /\ Gui.search lower messages query search_type `sublist_of` messages.
Proof.
  rewrite SearchFacts.cli_search_filter, SearchFacts.gui_search_filter.
  split; apply SearchFacts.filter_sublist_of.
Qed.

(** Records [A, B, C] of which [A] and [C] match come back as [A, C]. *)
Example search_order_sample :
  Cli.search ascii_lower [Samples.record_a; Samples.record_b; Samples.record_c]
             "Report" true true
  = [Samples.record_a; Samples.record_c].
Proof. reflexivity. Qed.

(** C8: with the empty string as the query and at least one field flag
    enabled, [search] returns every record of the sequence ([str.lower]
    maps the empty string to itself). *)
Theorem empty_query_returns_every_record
    (lower : string -> string) (messages : list EmailMessage)
    (match_subject match_body : bool) :
  lower "" = "" ->
  match_subject || match_body = true ->
  Cli.search lower messages "" match_subject match_body = messages.
Proof.
  intros Hlower Hflag. rewrite SearchFacts.cli_search_filter.
  apply SearchFacts.filter_all. intros m. unfold record_matches.
  rewrite Hlower, !TextFacts.contains_empty, !andb_true_r. exact Hflag.
Qed.

Lemma empty_query_returns_every_record_witness :
  ascii_lower "" = ""
  /\ true || false = true
  /\ Cli.search ascii_lower [Samples.record_a; Samples.record_b] "" true false
     = [Samples.record_a; Samples.record_b].
Proof.
  split; [reflexivity|]. split; [reflexivity|].
  apply (empty_query_returns_every_record ascii_lower
           [Samples.record_a; Samples.record_b] true false); reflexivity.
Defined.

(** C10: search is monotone in the field flags: the result of a search on
    the subject alone, and the result of a search on the body alone, are
    subsequences of the result of the search on both fields. *)
Theorem search_monotone_in_flags
    (lower : string -> string) (messages : list EmailMessage) (query : string) :
  Cli.search lower messages query true false
    `sublist_of` Cli.search lower messages query true true
  /\ Cli.search lower messages query false true
    `sublist_of` Cli.search lower messages query true true
  /\ Gui.search lower messages query "Subject"
    `sublist_of` Gui.search lower messages query "Both"
  /\ Gui.search lower messages query "Body"
    `sublist_of` Gui.search lower messages query "Both".
Proof.
  rewrite !SearchFacts.cli_search_filter, !SearchFacts.gui_search_filter.
  repeat split; apply SearchFacts.filter_sublist_mono; intros m;
    apply SearchFacts.record_matches_mono; done.
Qed.


(** The check of the path comes first in both loaders: on a path that does
    not exist the command-line tool goes straight to the print of "File ...
    does not exist" and [sys.exit(1)], and the desktop tool raises
    [FileNotFoundError] at [os.path.getsize] and sends it through [error],
    with no progress value and no batch of records; no parser is called. *)
Lemma missing_path_is_checked_first
    (lower : string -> string) (bytes_decode : list Byte.byte -> result string)
    (parsedate_to_datetime : pyval -> result datetime)
    (message_factory : list Byte.byte -> Message)
    (print_fails : Cli.ConsoleError -> bool)
    (fs : gmap string (list Byte.byte)) (mbox_path : string) :
  fs !! mbox_path = None ->
  Cli.load_mbox lower bytes_decode parsedate_to_datetime message_factory print_fails
                fs mbox_path
  = Cli.print_and_exit print_fails (Cli.FileDoesNotExist mbox_path)
  /\ Gui.run lower bytes_decode parsedate_to_datetime message_factory fs mbox_path
     = [Gui.status Gui.ScanningFile; Gui.error (FileNotFoundError mbox_path)]
  /\ finished_batches
       (Gui.run lower bytes_decode parsedate_to_datetime message_factory fs mbox_path)
     = [].
Proof.
  intros Hmissing. split; [|split].
  - unfold Cli.load_mbox. by rewrite Hmissing.
  - by apply RunFacts.run_missing.
  - by rewrite RunFacts.run_missing.
Qed.

(** C9, on the path [a[/b].mbox], which does not exist: the command-line
    tool prints its message as console markup with the path inside, rich
    rejects the closing tag [[/b]], and [load_mbox] leaves with
    [MarkupError] before [sys.exit(1)]: the process never reports that the
    file does not exist, and ends either with the same error, uncaught, or
    with the message and exit status of [main]'s handler. *)
Theorem missing_path_with_closing_tag_is_not_reported
    (lower : string -> string) (bytes_decode : list Byte.byte -> result string)
    (parsedate_to_datetime : pyval -> result datetime)
    (message_factory : list Byte.byte -> Message)
    (print_fails : Cli.ConsoleError -> bool) (render_fails : string -> bool)
    (strftime : datetime -> string)
    (fs : gmap string (list Byte.byte)) (prog : string)
    (inputs : list CliMain.Typed) :
  fs !! "a[/b].mbox" = None ->
  print_fails (Cli.FileDoesNotExist "a[/b].mbox") = true ->
  let out :=
    CliMain.main lower bytes_decode parsedate_to_datetime message_factory print_fails
                 render_fails strftime [prog; "a[/b].mbox"] fs inputs in
  Cli.load_mbox lower bytes_decode parsedate_to_datetime message_factory print_fails
                fs "a[/b].mbox"
  = Cli.Raised MarkupError
  /\ (out = ([], CliMain.Uncaught MarkupError)
      \/ out = ([CliMain.ErrorOccurred], CliMain.Exited 1))
  /\ ~ In (CliMain.LoadFailed (Cli.FileDoesNotExist "a[/b].mbox")) out.1.
Proof.
  intros Hmissing Hfails out.
  assert (Cli.load_mbox lower bytes_decode parsedate_to_datetime message_factory
            print_fails fs "a[/b].mbox" = Cli.Raised MarkupError) as Hload.
  { unfold Cli.load_mbox, Cli.print_and_exit. by rewrite Hmissing, Hfails. }
  split; [exact Hload|].
  subst out. unfold CliMain.main, CliMain.except_exception. rewrite Hload.
  destruct (print_fails (Cli.AnErrorOccurred MarkupError)); simpl.
  - split; [by left|]. by intros [].
  - split; [by right|]. by intros [|[]].
Qed.

Lemma missing_path_with_closing_tag_is_not_reported_witness :
  Samples.sample_fs !! "a[/b].mbox" = None
  /\ Samples.closing_tag_fails (Cli.FileDoesNotExist "a[/b].mbox") = true
  /\ Cli.load_mbox ascii_lower Samples.ascii_decode Samples.sample_parsedate
                   Samples.body_only_factory Samples.closing_tag_fails
                   Samples.sample_fs "a[/b].mbox"
     = Cli.Raised MarkupError
  /\ CliMain.main ascii_lower Samples.ascii_decode Samples.sample_parsedate
                  Samples.body_only_factory Samples.closing_tag_fails
                  (fun _ => false) (fun _ => "2024-01-01 00:00")
                  ["mbox_search.py"; "a[/b].mbox"] Samples.sample_fs
                  [CliMain.Line "4"]
     = ([], CliMain.Uncaught MarkupError).
Proof.
  split; [reflexivity|]. split; [reflexivity|].
  split; [|reflexivity].
  apply (missing_path_with_closing_tag_is_not_reported ascii_lower
           Samples.ascii_decode Samples.sample_parsedate Samples.body_only_factory
           Samples.closing_tag_fails (fun _ => false) (fun _ => "2024-01-01 00:00")
           Samples.sample_fs "mbox_search.py" [CliMain.Line "4"]); reflexivity.
Defined.

(** A path without markup that does not exist is reported as the code
    intends, by both tools. *)
Example missing_path_samples :
  Cli.load_mbox ascii_lower Samples.ascii_decode Samples.sample_parsedate
                Samples.body_only_factory Samples.closing_tag_fails
                Samples.sample_fs "absent.mbox"
  = Cli.SysExit 1 (Cli.FileDoesNotExist "absent.mbox")
  /\ Gui.run ascii_lower Samples.ascii_decode Samples.sample_parsedate
             Samples.body_only_factory Samples.sample_fs "a[/b].mbox"
     = [Gui.status Gui.ScanningFile; Gui.error (FileNotFoundError "a[/b].mbox")].
Proof. split; reflexivity. Qed.

(** C7: for a multi-part message, the plain-text loader builds the body as
    the concatenation, in the order of the parts, of the decoded text of
    every part of type [text/plain]; parts of other types add nothing, and a
    part whose decoding fails adds nothing and stops neither the message nor
    the load.  The desktop loader collects its [body] variable alike. *)
Theorem plain_text_body_concatenates_plain_parts
    (bytes_decode : list Byte.byte -> result string) (message : Message) :
  is_multipart message = true ->
  Cli._get_message_body bytes_decode message
  = Ok (join (map (decoded_text bytes_decode)
                  (List.filter (has_type "text/plain") (walk message))))
  /\ (exists html_body,
       Gui.get_bodies bytes_decode message
       = Ok (join (map (decoded_text bytes_decode)
                       (List.filter (has_type "text/plain") (walk message))),
             html_body))
  /\ (forall part e,
       decode_payload bytes_decode part = Raise e ->
       decoded_text bytes_decode part = "").
Proof.
  intros Hmulti. split; [|split].
  - by rewrite RecordFacts.cli_get_message_body, Hmulti.
  - eexists. by rewrite (RecordFacts.gui_get_bodies_multipart _ _ Hmulti).
  - intros part e He. unfold decoded_text. by rewrite He.
Qed.

Lemma plain_text_body_concatenates_plain_parts_witness :
  is_multipart Samples.with_attachment = true
  /\ Cli._get_message_body Samples.ascii_decode Samples.with_attachment
     = Ok (join (map (decoded_text Samples.ascii_decode)
                     (List.filter (has_type "text/plain")
                                  (walk Samples.with_attachment)))).
Proof.
  split; [reflexivity|].
  apply (plain_text_body_concatenates_plain_parts Samples.ascii_decode
           Samples.with_attachment).
  reflexivity.
Defined.

(** A plain-text part "Hello" next to an attachment gives the body "Hello";
    a part that does not decode is passed over. *)
Example plain_text_body_samples :
  Cli._get_message_body Samples.ascii_decode Samples.with_attachment = Ok "Hello"
  /\ Cli._get_message_body Samples.ascii_decode Samples.with_bad_part = Ok "Hello".
Proof. by vm_compute. Qed.

(** C5, as the specification states it, does not hold of the desktop
    loader: for the message [Samples.alternative], which has the usable
    plain-text part "Hello" and an HTML part, the body of the record is not
    the plain text. *)
Lemma body_is_not_plain_text_when_html_exists :
  is_multipart Samples.alternative = true
  /\ plain_text Samples.ascii_decode Samples.alternative = "Hello"
  /\ ~ exists r,
       Gui.make_email ascii_lower Samples.ascii_decode Samples.sample_parsedate
                      Samples.alternative = Ok r
       /\ body r = PStr (plain_else_html Samples.ascii_decode Samples.alternative).
Proof.
  split; [reflexivity|]. split; [reflexivity|].
  intros (r & Hr & Hbody). vm_compute in Hr. vm_compute in Hbody.
  injection Hr as <-. discriminate Hbody.
Qed.

(** C5, amended: in the desktop loader, the body of a multi-part message is
    the concatenation of its decoded HTML parts where that text is not
    empty, and the concatenation of its decoded plain-text parts
    otherwise. *)
Theorem multipart_body_prefers_html
    (lower : string -> string) (bytes_decode : list Byte.byte -> result string)
    (parsedate_to_datetime : pyval -> result datetime) (message : Message) :
  is_multipart message = true ->
  exists r,
    Gui.make_email lower bytes_decode parsedate_to_datetime message = Ok r
    /\ body r
       = PStr (if str_truthy (html_text bytes_decode message)
               then html_text bytes_decode message
               else plain_text bytes_decode message).
Proof.
  intros Hmulti. rewrite RecordFacts.gui_make_email. eexists. split; [done|].
  unfold gui_record, headers_record. simpl. by rewrite Hmulti.
Qed.

Lemma multipart_body_prefers_html_witness :
  is_multipart Samples.alternative = true
  /\ exists r,
       Gui.make_email ascii_lower Samples.ascii_decode Samples.sample_parsedate
                      Samples.alternative = Ok r
       /\ body r
          = PStr (if str_truthy (html_text Samples.ascii_decode Samples.alternative)
                  then html_text Samples.ascii_decode Samples.alternative
                  else plain_text Samples.ascii_decode Samples.alternative).
Proof.
  split; [reflexivity|].
  apply (multipart_body_prefers_html ascii_lower Samples.ascii_decode
           Samples.sample_parsedate Samples.alternative).
  reflexivity.
Defined.



(** A [Date] header that does not parse gives no timestamp; one that
    parses gives its date, whatever the case of the header's name. *)
Example timestamp_samples :
  date_unusable ascii_lower Samples.sample_parsedate Samples.alternative
  /\ Cli.parse_date ascii_lower Samples.sample_parsedate Samples.alternative = Ok None
  /\ Cli.parse_date ascii_lower Samples.sample_parsedate Samples.dated
     = Ok (Some Samples.new_year).
Proof.
  split; [right; by exists ValueError|]. split; reflexivity.
Qed.


(** C2, on the file [Samples.two_messages]: the file has two lines that
    begin with [From ], the first pass of the desktop loader announces one
    message, and the loader hands over two records, whatever the library
    functions are. *)
Theorem two_message_file_count_differs
    (lower : string -> string) (bytes_decode : list Byte.byte -> result string)
    (parsedate_to_datetime : pyval -> result datetime)
    (message_factory : list Byte.byte -> Message) :
  let out := Gui.run lower bytes_decode parsedate_to_datetime message_factory
                     Samples.sample_fs "two.mbox" in
  Mailbox.from_lines Samples.two_messages = 2%nat
  /\ announced_counts out = [1%Z]
  /\ exists records, finished_batches out = [records] /\ length records = 2%nat.
Proof.
  assert (Hf : Samples.sample_fs !! "two.mbox" = Some Samples.two_messages)
    by reflexivity.
  assert (Hcount : prescan_count Samples.two_messages = 1%Z) by (by vm_compute).
  assert (Hne : prescan_count Samples.two_messages <> 0%Z) by (by rewrite Hcount).
  assert (Hlines : Mailbox.from_lines Samples.two_messages = 2%nat) by (by vm_compute).
  cbv zeta. split; [exact Hlines|]. split.
  - by rewrite (RunResults.run_announced _ _ _ _ _ _ _ Hf Hne), Hcount.
  - eexists. split; [by apply RunResults.run_finished|].
    by rewrite length_map, MailboxFacts.mbox_length.
Qed.

(** C3, on the file [Samples.two_messages]: the progress values of the
    desktop loader are 50, 100 and 150, whatever the library functions
    are. *)
Theorem two_message_file_progress_exceeds_100
    (lower : string -> string) (bytes_decode : list Byte.byte -> result string)
    (parsedate_to_datetime : pyval -> result datetime)
    (message_factory : list Byte.byte -> Message) :
  progress_values
    (Gui.run lower bytes_decode parsedate_to_datetime message_factory
             Samples.sample_fs "two.mbox")
  = [50; 100; 150]%Z.
Proof.
  assert (Hf : Samples.sample_fs !! "two.mbox" = Some Samples.two_messages)
    by reflexivity.
  assert (Hne : prescan_count Samples.two_messages <> 0%Z) by (by vm_compute).
  rewrite (RunResults.run_progress _ _ _ _ _ _ _ Hf Hne). by vm_compute.
Qed.

(** On a file with one message the first pass counts no message, and the
    division by that count ends the load with an error. *)
Example one_message_file_fails
    (lower : string -> string) (bytes_decode : list Byte.byte -> result string)
    (parsedate_to_datetime : pyval -> result datetime)
    (message_factory : list Byte.byte -> Message) :
  Mailbox.from_lines Samples.one_message = 1%nat
  /\ Gui.run lower bytes_decode parsedate_to_datetime message_factory
             Samples.sample_fs "one.mbox"
     = [Gui.status Gui.ScanningFile; Gui.progress 50;
        Gui.status (Gui.FoundMessages 0); Gui.error ZeroDivisionError].
Proof.
  split; [by vm_compute|].
  assert (Hf : Samples.sample_fs !! "one.mbox" = Some Samples.one_message)
    by reflexivity.
  assert (Hcount : prescan_count Samples.one_message = 0%Z) by (by vm_compute).
  destruct (Mailbox.mbox message_factory Samples.one_message) as [|m ms] eqn:Hmbox.
  - apply (f_equal length) in Hmbox. rewrite MailboxFacts.mbox_length in Hmbox.
    by vm_compute in Hmbox.
  - rewrite (RunFacts.run_zero_count _ _ _ _ _ _ _ _ _ Hf Hcount Hmbox).
    by vm_compute.
Qed.

(** * Further properties of the code *)

(** ** Search *)

Module SearchMore.
Import TextFacts SearchFacts.

Lemma filter_idempotent {A} (f : A -> bool) (l : list A) :
  List.filter f (List.filter f l) = List.filter f l.
Proof.
  induction l as [|x l IH]; [done|]. simpl.
  destruct (f x) eqn:Hf; [|exact IH]. simpl. by rewrite Hf, IH.
Qed.

Lemma substring_of_trans (a b c : string) :
  substring_of a b -> substring_of b c -> substring_of a c.
Proof.
  intros (pre1 & post1 & ->) (pre2 & post2 & ->).
  exists (pre2 +:+ pre1), (post1 +:+ post2). by rewrite !append_assoc.
Qed.

Lemma record_matches_narrower (lower : string -> string) q1 q2 ss sb m :
  substring_of (lower q1) (lower q2) ->
  record_matches lower q2 ss sb m = true ->
  record_matches lower q1 ss sb m = true.
Proof.
  intros Hsub. rewrite !record_matches_iff. unfold record_matches_prop.
  intros [[? H]|[? H]]; [left | right]; (split; [done|]);
    by apply (substring_of_trans _ _ _ Hsub).
Qed.

Lemma enabled_other (search_type : string) :
  search_type <> "Subject" -> search_type <> "Body" -> search_type <> "Both" ->
  subject_enabled search_type = false /\ body_enabled search_type = false.
Proof.
  intros H1 H2 H3. unfold subject_enabled, body_enabled. simpl.
  apply String.eqb_neq in H1, H2, H3. by rewrite H1, H2, H3.
Qed.

Lemma filter_none {A} (f : A -> bool) (l : list A) :
  (forall x, f x = false) -> List.filter f l = [].
Proof.
  intros Hf. induction l as [|x l IH]; [done|]. simpl. by rewrite Hf.
Qed.

End SearchMore.

(** X1: the two tools search alike: the entries "Subject", "Body" and
    "Both" of the combo box give the results of the command-line search on
    the subject, on the body and on both; with no field enabled -- both
    flags off, or a search type that is none of the three -- the result is
    empty. *)
Theorem search_of_both_tools_agree
    (lower : string -> string) (messages : list EmailMessage) (query : string) :
  Gui.search lower messages query "Subject" = Cli.search lower messages query true false
  /\ Gui.search lower messages query "Body" = Cli.search lower messages query false true
  /\ Gui.search lower messages query "Both" = Cli.search lower messages query true true
  /\ Cli.search lower messages query false false = []
  /\ (forall search_type,
       search_type <> "Subject" -> search_type <> "Body" -> search_type <> "Both" ->
       Gui.search lower messages query search_type = []).
Proof.
  rewrite !SearchFacts.cli_search_filter. repeat split.
  - apply SearchFacts.gui_search_filter.
  - apply SearchFacts.gui_search_filter.
  - apply SearchFacts.gui_search_filter.
  - by apply SearchMore.filter_none.
  - intros search_type H1 H2 H3. rewrite SearchFacts.gui_search_filter.
    destruct (SearchMore.enabled_other search_type H1 H2 H3) as [-> ->].
    by apply SearchMore.filter_none.
Qed.

(** X2: searching within the result of a search, with the same query and
    flags, changes nothing; and the search of a sequence put together from
    two is the two results put together. *)
Theorem search_twice_and_search_of_append
    (lower : string -> string) (messages more : list EmailMessage) (query : string)
    (search_subject search_body : bool) :
  Cli.search lower (Cli.search lower messages query search_subject search_body)
             query search_subject search_body
  = Cli.search lower messages query search_subject search_body
  /\ Cli.search lower (messages ++ more) query search_subject search_body
     = Cli.search lower messages query search_subject search_body
       ++ Cli.search lower more query search_subject search_body.
Proof.
  rewrite !SearchFacts.cli_search_filter. split.
  - apply SearchMore.filter_idempotent.
  - apply List.filter_app.
Qed.

(** X3: a record is found by the search on both fields exactly when the
    search on the subject alone or the search on the body alone finds it. *)
Theorem search_both_is_union
    (lower : string -> string) (messages : list EmailMessage) (query : string)
    (message : EmailMessage) :
  In message (Cli.search lower messages query true true)
  <-> In message (Cli.search lower messages query true false)
      \/ In message (Cli.search lower messages query false true).
Proof.
  rewrite !SearchFacts.cli_search_filter, !List.filter_In.
  unfold record_matches. simpl.
  rewrite orb_true_iff, !orb_false_r. tauto.
Qed.

(** X4: a query that contains another finds no more than it: when the
    lowercased [short] occurs in the lowercased [long], the result for
    [long] is a subsequence of the result for [short]. *)
Theorem longer_query_finds_less
    (lower : string -> string) (messages : list EmailMessage) (short long : string)
    (search_subject search_body : bool) :
  substring_of (lower short) (lower long) ->
  Cli.search lower messages long search_subject search_body
    `sublist_of` Cli.search lower messages short search_subject search_body.
Proof.
  intros Hsub. rewrite !SearchFacts.cli_search_filter.
  apply SearchFacts.filter_sublist_mono. intros m.
  by apply SearchMore.record_matches_narrower.
Qed.

Lemma longer_query_finds_less_witness :
  substring_of (ascii_lower "port") (ascii_lower "Report")
  /\ Cli.search ascii_lower [Samples.record_a; Samples.record_b; Samples.record_c]
                "Report" true true
     `sublist_of`
     Cli.search ascii_lower [Samples.record_a; Samples.record_b; Samples.record_c]
                "port" true true.
Proof.
  assert (H : substring_of (ascii_lower "port") (ascii_lower "Report"))
    by (by exists "re", "").
  split; [exact H|].
  exact (longer_query_finds_less ascii_lower
           [Samples.record_a; Samples.record_b; Samples.record_c]
           "port" "Report" true true H).
Defined.

(** ** Records *)

(** X5: for a message that is not multipart and whose payload decodes,
    both loaders take the decoded text as the body of the record, whatever
    the content type: the desktop loader also for [text/html], where the
    text goes through [html_body]. *)
Theorem single_part_body_is_the_decoded_payload
    (lower : string -> string) (bytes_decode : list Byte.byte -> result string)
    (parsedate_to_datetime : pyval -> result datetime) (message : Message)
    (text : string) :
  is_multipart message = false ->
  decode_payload bytes_decode message = Ok text ->
  Cli._get_message_body bytes_decode message = Ok text
  /\ (if String.eqb (get_content_type message) "text/html"
      then Gui.get_bodies bytes_decode message = Ok ("", text)
      else Gui.get_bodies bytes_decode message = Ok (text, ""))
  /\ exists r,
       Gui.make_email lower bytes_decode parsedate_to_datetime message = Ok r
       /\ body r = PStr text.
Proof.
  intros Hsingle Hdecode. split; [|split].
  - unfold Cli._get_message_body. by rewrite Hsingle, Hdecode.
  - unfold Gui.get_bodies. rewrite Hsingle, Hdecode.
    by destruct (String.eqb (get_content_type message) "text/html").
  - unfold Gui.make_email, Gui.get_bodies.
    rewrite RecordFacts.gui_parse_date, Hsingle, Hdecode. simpl.
    destruct (String.eqb (get_content_type message) "text/html"); simpl.
    + eexists. split; [reflexivity|]. simpl. by destruct text.
    + eexists. split; reflexivity.
Qed.

Lemma single_part_body_is_the_decoded_payload_witness :
  is_multipart (Samples.leaf "text/html" "<p>Hello</p>") = false
  /\ decode_payload Samples.ascii_decode (Samples.leaf "text/html" "<p>Hello</p>")
     = Ok "<p>Hello</p>"
  /\ exists r,
       Gui.make_email ascii_lower Samples.ascii_decode Samples.sample_parsedate
                      (Samples.leaf "text/html" "<p>Hello</p>") = Ok r
       /\ body r = PStr "<p>Hello</p>".
Proof.
  split; [reflexivity|]. split; [reflexivity|].
  apply (single_part_body_is_the_decoded_payload ascii_lower Samples.ascii_decode
           Samples.sample_parsedate (Samples.leaf "text/html" "<p>Hello</p>")
           "<p>Hello</p>"); reflexivity.
Defined.

(** X6: for a message without [Message-ID], [Subject] and [From] headers,
    every record that a loader builds has the empty string as identifier,
    subject and sender. *)
Theorem missing_headers_give_empty_fields
    (lower : string -> string) (bytes_decode : list Byte.byte -> result string)
    (parsedate_to_datetime : pyval -> result datetime) (message : Message) :
  has_header lower "Message-ID" message = false ->
  has_header lower "Subject" message = false ->
  has_header lower "From" message = false ->
  (forall records,
     Cli.load_loop lower bytes_decode parsedate_to_datetime [message] [] = Ok records ->
     exists r,
       records = [r]
       /\ message_id r = PStr "" /\ subject r = PStr "" /\ from_addr r = PStr "")
  /\ (forall r,
        Gui.make_email lower bytes_decode parsedate_to_datetime message = Ok r ->
        message_id r = PStr "" /\ subject r = PStr "" /\ from_addr r = PStr "").
Proof.
  intros Hid Hsubject Hfrom. split.
  - intros records. cbn [Cli.load_loop].
    rewrite !(RecordFacts.get_missing _ _ _ _ Hid),
      !(RecordFacts.get_missing _ _ _ _ Hsubject),
      !(RecordFacts.get_missing _ _ _ _ Hfrom).
    destruct (Cli.parse_date _ _ _) as [date_obj|e]; [|done]. simpl.
    destruct (Cli._get_message_body _ _) as [body_|e]; [|done]. simpl.
    intros [= <-]. eexists. by repeat split.
  - intros r. unfold Gui.make_email.
    rewrite !(RecordFacts.get_missing _ _ _ _ Hid),
      !(RecordFacts.get_missing _ _ _ _ Hsubject),
      !(RecordFacts.get_missing _ _ _ _ Hfrom).
    destruct (Gui.parse_date _ _ _) as [date_obj|e]; [|done]. simpl.
    destruct (Gui.get_bodies _ _) as [[body_ html_body]|e]; [|done]. simpl.
    intros [= <-]. by repeat split.
Qed.

Lemma missing_headers_give_empty_fields_witness :
  has_header ascii_lower "Message-ID" Samples.dated = false
  /\ has_header ascii_lower "Subject" Samples.dated = false
  /\ has_header ascii_lower "From" Samples.dated = false
  /\ Gui.make_email ascii_lower Samples.ascii_decode Samples.sample_parsedate
                    Samples.dated
     = Ok (gui_record ascii_lower Samples.ascii_decode Samples.sample_parsedate
                      Samples.dated)
  /\ subject (gui_record ascii_lower Samples.ascii_decode Samples.sample_parsedate
                         Samples.dated) = PStr "".
Proof.
  split; [reflexivity|]. split; [reflexivity|]. split; [reflexivity|].
  split; [reflexivity|].
  apply (missing_headers_give_empty_fields ascii_lower Samples.ascii_decode
           Samples.sample_parsedate Samples.dated); reflexivity.
Defined.

(** X7: for every message that is not multipart, and for every multipart
    message whose HTML parts give no text, the two loaders agree: the
    desktop loader builds a record exactly when the command-line loader
    does, and it is the same record. *)
Theorem loaders_agree_without_html
    (lower : string -> string) (bytes_decode : list Byte.byte -> result string)
    (parsedate_to_datetime : pyval -> result datetime) (message : Message) :
  is_multipart message = false \/ html_text bytes_decode message = "" ->
  forall r,
    Gui.make_email lower bytes_decode parsedate_to_datetime message = Ok r
    <-> Cli.load_loop lower bytes_decode parsedate_to_datetime [message] [] = Ok [r].
Proof.
  intros Hcase r.
  rewrite RecordFacts.gui_make_email, RecordFacts.cli_load_loop. simpl.
  assert (gui_record lower bytes_decode parsedate_to_datetime message
          = cli_record lower bytes_decode parsedate_to_datetime message) as ->.
  { unfold cli_record, gui_record. f_equal.
    destruct (is_multipart message); [|done].
    destruct Hcase as [?|Hhtml]; [done|].
    unfold html_else_plain. by rewrite Hhtml. }
  split; intros [= <-]; reflexivity.
Qed.

Lemma loaders_agree_without_html_witness :
  (is_multipart Samples.with_attachment = false
   \/ html_text Samples.ascii_decode Samples.with_attachment = "")
  /\ Gui.make_email ascii_lower Samples.ascii_decode Samples.sample_parsedate
                    Samples.with_attachment
     = Ok (gui_record ascii_lower Samples.ascii_decode Samples.sample_parsedate
                      Samples.with_attachment)
  /\ Cli.load_loop ascii_lower Samples.ascii_decode Samples.sample_parsedate
                   [Samples.with_attachment] []
     = Ok [gui_record ascii_lower Samples.ascii_decode Samples.sample_parsedate
                      Samples.with_attachment].
Proof.
  split; [right; reflexivity|]. split; [reflexivity|].
  apply (loaders_agree_without_html ascii_lower Samples.ascii_decode
           Samples.sample_parsedate Samples.with_attachment);
    [right; reflexivity | reflexivity].
Defined.

(** ** The count of the first pass *)

Module SeparatorFacts.
Import LoaderSpec Separators.

#[local] Opaque Gui.chunk_size.

Local Abbreviation separator := (Mailbox.newline :: Mailbox.bytes_of "From ").
Local Abbreviation from_ := (Mailbox.bytes_of "From ").

Lemma eqb_newline_sym c : Byte.eqb Mailbox.newline c = Byte.eqb c Mailbox.newline.
Proof.
  destruct (Byte.eqb c Mailbox.newline) eqn:H.
  - apply Byte.byte_dec_bl in H as ->. reflexivity.
  - destruct (Byte.eqb Mailbox.newline c) eqn:H'; [|done].
    apply Byte.byte_dec_bl in H' as <-. by vm_compute in H.
Qed.

Lemma startswith_nil s : Mailbox.startswith s [] = true.
Proof. by destruct s. Qed.

Lemma startswith_cons c s b p :
  Mailbox.startswith (c :: s) (b :: p) = Byte.eqb b c && Mailbox.startswith s p.
Proof. reflexivity. Qed.

Lemma startswith_nil_cons b p : Mailbox.startswith [] (b :: p) = false.
Proof. reflexivity. Qed.

#[local] Arguments Mailbox.startswith : simpl never.

Lemma startswith_app s t p :
  Mailbox.startswith s p = true -> Mailbox.startswith (s ++ t) p = true.
Proof.
  revert s. induction p as [|b p IH]; intros s H; [apply startswith_nil|].
  destruct s as [|c s]; [done|].
  change ((c :: s) ++ t) with (c :: (s ++ t)). rewrite startswith_cons in *.
  apply andb_true_iff in H as [-> H]. by apply IH.
Qed.

Lemma startswith_take s p :
  Mailbox.startswith s p = true -> take (length p) s = p.
Proof.
  revert s. induction p as [|b p IH]; intros s H; [done|].
  destruct s as [|c s]; [done|]. rewrite startswith_cons in H.
  apply andb_true_iff in H as [Hb H]. apply Byte.byte_dec_bl in Hb as ->.
  simpl. by rewrite IH.
Qed.

Lemma occurrences_nonneg sub s : (0 <= occurrences sub s)%Z.
Proof.
  induction s as [|c s IH]; [done|]. cbn [occurrences].
  destruct (Mailbox.startswith (c :: s) sub); lia.
Qed.

Lemma occurrences_app sub s t :
  (occurrences sub s + occurrences sub t <= occurrences sub (s ++ t))%Z.
Proof.
  induction s as [|c s IH]; [simpl; lia|].
  change ((c :: s) ++ t) with (c :: (s ++ t)). cbn [occurrences].
  destruct (Mailbox.startswith (c :: s) sub) eqn:H.
  - change (c :: s ++ t) with ((c :: s) ++ t). rewrite (startswith_app _ t _ H). lia.
  - destruct (Mailbox.startswith (c :: s ++ t) sub); lia.
Qed.

Lemma count_from_le_occurrences sub skip s :
  (Gui.count_from sub skip s <= occurrences sub s)%Z.
Proof.
  revert skip. induction s as [|c s IH]; intros skip; [done|].
  cbn [Gui.count_from occurrences]. destruct skip as [|skip].
  - destruct (Mailbox.startswith (c :: s) sub).
    + specialize (IH (length sub - 1)%nat). lia.
    + specialize (IH 0%nat). lia.
  - specialize (IH skip). destruct (Mailbox.startswith (c :: s) sub); lia.
Qed.

Lemma scan_count_le_occurrences chunks :
  (scan_count chunks <= occurrences separator (concat chunks))%Z.
Proof.
  induction chunks as [|chunk chunks IH]; [done|].
  cbn [scan_count foldr concat]. fold (scan_count chunks).
  pose proof (occurrences_app separator chunk (concat chunks)).
  pose proof (count_from_le_occurrences separator 0 chunk).
  unfold Gui.count. lia.
Qed.

(** A pattern without newline begins the file when it begins its first
    line. *)
Lemma startswith_first_line p f :
  Forall (fun b => b <> Mailbox.newline) p ->
  Mailbox.startswith (default [] (head (Mailbox.readlines f))) p
  = Mailbox.startswith f p.
Proof.
  intros Hp. revert f. induction Hp as [|b p Hb Hp IH]; intros f.
  - by rewrite !startswith_nil.
  - destruct f as [|c f]; [done|]. cbn [Mailbox.readlines].
    destruct (Byte.eqb c Mailbox.newline) eqn:Hc.
    + apply Byte.byte_dec_bl in Hc as ->. cbn [head default from_option id].
      rewrite !startswith_cons.
      destruct (Byte.eqb b Mailbox.newline) eqn:Hb'; [|done].
      by apply Byte.byte_dec_bl in Hb'.
    + specialize (IH f).
      destruct (Mailbox.readlines f) as [|line lines] eqn:Hlines;
        cbn [head default from_option id] in *; rewrite !startswith_cons; by rewrite IH.
Qed.

Lemma from_has_no_newline : Forall (fun b => b <> Mailbox.newline) from_.
Proof. repeat constructor; discriminate. Qed.

Lemma newline_is_no_from_line : Mailbox.startswith [Mailbox.newline] from_ = false.
Proof. reflexivity. Qed.

Lemma separator_at c f :
  Mailbox.startswith (c :: f) separator
  = Byte.eqb c Mailbox.newline && Mailbox.startswith f from_.
Proof.
  change separator with (Mailbox.newline :: from_).
  by rewrite startswith_cons, eqb_newline_sym.
Qed.

(** The lines that begin with [From ] are the first line, if it does, and
    the ones after a separator. *)
Lemma from_lines_occurrences f :
  Z.of_nat (Mailbox.from_lines f) = (leading_from f + occurrences separator f)%Z.
Proof.
  unfold Mailbox.from_lines, leading_from.
  induction f as [|c f IH]; [done|].
  pose proof (startswith_first_line from_ (c :: f) from_has_no_newline) as Hfirst.
  pose proof (startswith_first_line from_ f from_has_no_newline) as Hrest.
  cbn [occurrences]. rewrite separator_at.
  cbn [Mailbox.readlines] in *.
  destruct (Byte.eqb c Mailbox.newline) eqn:Hc.
  - apply Byte.byte_dec_bl in Hc as ->. cbn [head default from_option id] in Hfirst.
    rewrite <- Hfirst, newline_is_no_from_line.
    cbn [List.filter]. rewrite newline_is_no_from_line.
    rewrite IH. simpl andb. lia.
  - simpl andb. destruct (Mailbox.readlines f) as [|line lines].
    + cbn [head default from_option id] in *. cbn [List.filter length] in *.
      rewrite <- Hfirst. rewrite <- Hrest in IH.
      change (Mailbox.startswith [] from_) with false in IH.
      destruct (Mailbox.startswith [c] from_); cbn [length]; lia.
    + cbn [head default from_option id] in *. cbn [List.filter] in *.
      rewrite <- Hfirst. rewrite <- Hrest in IH.
      destruct (Mailbox.startswith (c :: line) from_),
               (Mailbox.startswith line from_); cbn [length] in *; lia.
Qed.

(** Occurrences of the separator cannot overlap, so [count] finds all of
    them. *)
Lemma count_from_separator skip s :
  Forall (fun b => b <> Mailbox.newline) (take skip s) ->
  Gui.count_from separator skip s = occurrences separator s.
Proof.
  revert skip. induction s as [|c s IH]; intros skip Hskip; [done|].
  cbn [Gui.count_from occurrences]. destruct skip as [|skip].
  - destruct (Mailbox.startswith (c :: s) separator) eqn:Hstart.
    + rewrite IH; [done|]. rewrite separator_at in Hstart.
      apply andb_true_iff in Hstart as [_ Hstart].
      apply startswith_take in Hstart.
      change (length separator - 1)%nat with (length from_).
      rewrite Hstart. apply from_has_no_newline.
    + rewrite IH; [done|]. rewrite take_0. constructor.
  - cbn [take] in Hskip. inversion Hskip as [|? ? Hc Hrest]; subst.
    rewrite IH by done. rewrite separator_at.
    destruct (Byte.eqb c Mailbox.newline) eqn:Hnl; [|done].
    apply Byte.byte_dec_bl in Hnl. by subst.
Qed.

Lemma read_chunks_single (f : list Byte.byte) :
  f <> [] -> (length f <= Gui.chunk_size)%nat ->
  Gui.read_chunks (length f) Gui.chunk_size f = [f].
Proof.
  intros Hne Hlen. destruct f as [|c f]; [done|].
  cbn [length Gui.read_chunks]. rewrite take_ge by done.
  rewrite drop_ge by done. by rewrite RunFacts.read_chunks_nil.
Qed.

Lemma prescan_count_le f :
  (prescan_count f + leading_from f <= Z.of_nat (Mailbox.from_lines f))%Z.
Proof.
  rewrite from_lines_occurrences. unfold prescan_count.
  pose proof (scan_count_le_occurrences
                (Gui.read_chunks (length f) Gui.chunk_size f)) as H.
  rewrite ProgressFacts.read_chunks_concat in H;
    [lia | apply ProgressFacts.chunk_size_pos | lia].
Qed.

Lemma prescan_count_single_chunk f :
  (length f <= Gui.chunk_size)%nat ->
  (prescan_count f + leading_from f = Z.of_nat (Mailbox.from_lines f))%Z.
Proof.
  intros Hlen. rewrite from_lines_occurrences. unfold prescan_count.
  destruct f as [|c f]; [by rewrite RunFacts.read_chunks_nil|].
  rewrite read_chunks_single by done. cbn [scan_count foldr].
  unfold Gui.count. rewrite count_from_separator; [lia|].
  rewrite take_0. constructor.
Qed.

End SeparatorFacts.

(** X8: the first pass of the desktop loader never counts too many
    messages, and it never counts the [From ] line that begins the file:
    its count plus one, for a file that begins with [From ], is at most the
    number of lines that begin with [From ]. *)
Theorem prescan_never_counts_the_leading_from_line (f : list Byte.byte) :
  (0 <= prescan_count f)%Z
  /\ (prescan_count f + Separators.leading_from f
      <= Z.of_nat (Mailbox.from_lines f))%Z.
Proof.
  split; [apply ProgressFacts.prescan_count_nonneg|].
  apply SeparatorFacts.prescan_count_le.
Qed.

(** X9: for a file that fits in one chunk of 1 MiB, the count of the first
    pass is exactly the number of lines that begin with [From ], less one
    when the file begins with [From ]. *)
Theorem prescan_is_one_short_on_small_files (f : list Byte.byte) :
  (length f <= Gui.chunk_size)%nat ->
  prescan_count f
  = (Z.of_nat (Mailbox.from_lines f) - Separators.leading_from f)%Z.
Proof.
  intros Hlen. pose proof (SeparatorFacts.prescan_count_single_chunk f Hlen). lia.
Qed.

Lemma prescan_is_one_short_on_small_files_witness :
  (length Samples.two_messages <= Gui.chunk_size)%nat
  /\ prescan_count Samples.two_messages
     = (Z.of_nat (Mailbox.from_lines Samples.two_messages)
        - Separators.leading_from Samples.two_messages)%Z.
Proof.
  assert (H : (length Samples.two_messages <= Gui.chunk_size)%nat)
    by (apply Nat.leb_le; vm_compute; reflexivity).
  split; [exact H|].
  exact (prescan_is_one_short_on_small_files Samples.two_messages H).
Defined.



(** ** The course of a run *)

Module CourseFacts.
Import Text Exn Model Email LoaderSpec Signals RunFacts SignalFacts.

#[local] Opaque Gui.chunk_size.

Lemma scan_signals_not_terminal values :
  Forall (fun s => is_terminal s = false) (map Gui.progress values).
Proof. induction values; by constructor. Qed.

Lemma load_signals_not_terminal n message_count current_message :
  Forall (fun s => is_terminal s = false)
         (load_signals n message_count current_message).
Proof.
  revert current_message. induction n as [|n IH]; intros c; [constructor|].
  cbn [load_signals]. repeat constructor. apply IH.
Qed.


Section Loader.
Variable lower : string -> string.
Variable bytes_decode : list Byte.byte -> result string.
Variable parsedate_to_datetime : pyval -> result datetime.
Variable message_factory : list Byte.byte -> Message.

Local Abbreviation gui_record := (gui_record lower bytes_decode parsedate_to_datetime).
Local Abbreviation run := (Gui.run lower bytes_decode parsedate_to_datetime message_factory).

(** The shape of every run: the scanning status, signals that do not end
    the load, and one signal that does. *)
Lemma run_shape (fs : gmap string (list Byte.byte)) mbox_path :
  exists out t,
    run fs mbox_path = Gui.status Gui.ScanningFile :: out ++ [t]
    /\ Forall (fun s => is_terminal s = false) out
    /\ is_terminal t = true.
Proof.
  destruct (fs !! mbox_path) as [f|] eqn:Hf.
  - set (scan := map Gui.progress
        (scan_progress (Gui.read_chunks (length f) Gui.chunk_size f) (Mailbox.len f) 0)).
    assert (Hscan : Forall (fun s => is_terminal s = false) scan)
      by apply scan_signals_not_terminal.
    destruct (Mailbox.mbox message_factory f) as [|m ms] eqn:Hmbox.
    + rewrite (run_empty_mbox _ _ _ _ _ _ _ Hf Hmbox). fold scan.
      exists (scan ++ [Gui.status (Gui.FoundMessages (prescan_count f))]),
             (Gui.finished []).
      split; [by rewrite <- app_assoc|]. split; [|done].
      apply Forall_app. split; [done|]. by repeat constructor.
    + destruct (decide (prescan_count f = 0%Z)) as [Hzero|Hcount].
      * rewrite (run_zero_count _ _ _ _ _ _ _ _ _ Hf Hzero Hmbox). fold scan.
        exists (scan ++ [Gui.status (Gui.FoundMessages 0)]),
               (Gui.error ZeroDivisionError).
        split; [by rewrite <- app_assoc|]. split; [|done].
        apply Forall_app. split; [done|]. by repeat constructor.
      * rewrite (run_loaded _ _ _ _ _ _ _ Hf Hcount). fold scan.
        exists (scan ++ Gui.status (Gui.FoundMessages (prescan_count f))
                     :: load_signals (length (Mailbox.mbox message_factory f))
                                     (prescan_count f) 0),
               (Gui.finished (map gui_record (Mailbox.mbox message_factory f))).
        split; [by rewrite <- app_assoc|]. split; [|done].
        apply Forall_app. split; [done|].
        constructor; [done|]. apply load_signals_not_terminal.
  - rewrite (run_missing _ _ _ _ _ _ Hf).
    exists [], (Gui.error (FileNotFoundError mbox_path)). by repeat split.
Qed.

(** The batches that a run hands over: none, or the records of the
    messages of the file. *)
Lemma run_batches (fs : gmap string (list Byte.byte)) mbox_path f :
  fs !! mbox_path = Some f ->
  finished_batches (run fs mbox_path) = []
  \/ finished_batches (run fs mbox_path)
     = [map gui_record (Mailbox.mbox message_factory f)].
Proof.
  intros Hf.
  destruct (Mailbox.mbox message_factory f) as [|m ms] eqn:Hmbox.
  - right. rewrite (run_empty_mbox _ _ _ _ _ _ _ Hf Hmbox).
    rewrite finished_batches_status, finished_batches_app, finished_batches_scan.
    reflexivity.
  - destruct (decide (prescan_count f = 0%Z)) as [Hzero|Hcount].
    + left. rewrite (run_zero_count _ _ _ _ _ _ _ _ _ Hf Hzero Hmbox).
      rewrite finished_batches_status, finished_batches_app, finished_batches_scan.
      reflexivity.
    + right. rewrite <- Hmbox. by apply RunResults.run_finished.
Qed.
End Loader.

End CourseFacts.

(** X11: every run of the desktop loader starts with the scanning status
    and ends with exactly one of [finished] and [error]: that signal is the
    last one, and no signal before it is a [finished] or an [error]. *)
Theorem run_ends_with_one_terminal_signal
    (lower : string -> string) (bytes_decode : list Byte.byte -> result string)
    (parsedate_to_datetime : pyval -> result datetime)
    (message_factory : list Byte.byte -> Message)
    (fs : gmap string (list Byte.byte)) (mbox_path : string) :
  exists out t,
    Gui.run lower bytes_decode parsedate_to_datetime message_factory fs mbox_path
    = Gui.status Gui.ScanningFile :: out ++ [t]
    /\ Forall (fun s => Signals.is_terminal s = false) out
    /\ Signals.is_terminal t = true.
Proof. apply CourseFacts.run_shape. Qed.


(** X14: a batch that the desktop loader hands over has one record for each
    line of the file that begins with [From ], as many as the command-line
    loader returns for the same file. *)
Theorem finished_batch_has_one_record_per_from_line
    (lower : string -> string) (bytes_decode : list Byte.byte -> result string)
    (parsedate_to_datetime : pyval -> result datetime)
    (message_factory : list Byte.byte -> Message)
    (print_fails : Cli.ConsoleError -> bool)
    (fs : gmap string (list Byte.byte)) (mbox_path : string) (f : list Byte.byte)
    (records : list EmailMessage) :
  fs !! mbox_path = Some f ->
  In records
     (finished_batches
        (Gui.run lower bytes_decode parsedate_to_datetime message_factory fs mbox_path)) ->
  length records = Mailbox.from_lines f
  /\ exists cli_records,
       Cli.load_mbox lower bytes_decode parsedate_to_datetime message_factory
                     print_fails fs mbox_path = Cli.Loaded cli_records
       /\ length cli_records = length records.
Proof.
  intros Hf Hin.
  destruct (CourseFacts.run_batches lower bytes_decode parsedate_to_datetime
              message_factory fs mbox_path f Hf) as [Hnone|Hone];
    [by rewrite Hnone in Hin|].
  rewrite Hone in Hin. destruct Hin as [<-|[]].
  rewrite length_map, MailboxFacts.mbox_length. split; [done|].
  destruct (RunResults.cli_load_mbox_records lower bytes_decode
              parsedate_to_datetime message_factory print_fails fs mbox_path f Hf)
    as [-> Hlen].
  eexists. split; [done|]. by rewrite length_map.
Qed.

Lemma finished_batch_has_one_record_per_from_line_witness :
  Samples.sample_fs !! "two.mbox" = Some Samples.two_messages
  /\ In (map (gui_record ascii_lower Samples.ascii_decode Samples.sample_parsedate)
             (Mailbox.mbox Samples.body_only_factory Samples.two_messages))
        (finished_batches
           (Gui.run ascii_lower Samples.ascii_decode Samples.sample_parsedate
                    Samples.body_only_factory Samples.sample_fs "two.mbox"))
  /\ length (map (gui_record ascii_lower Samples.ascii_decode Samples.sample_parsedate)
                 (Mailbox.mbox Samples.body_only_factory Samples.two_messages))
     = Mailbox.from_lines Samples.two_messages.
Proof.
  split; [reflexivity|]. split; [left; reflexivity|].
  apply (finished_batch_has_one_record_per_from_line ascii_lower
           Samples.ascii_decode Samples.sample_parsedate Samples.body_only_factory
           Samples.closing_tag_fails Samples.sample_fs "two.mbox"
           Samples.two_messages).
  - reflexivity.
  - left; reflexivity.
Defined.



(** ** Patterns *)

Module RegexFacts.
Import Regex TextFacts.

Lemma append_eq_empty (s t : string) : s +:+ t = "" -> s = "" /\ t = "".
Proof.
  destruct s as [|c s]; [rewrite append_empty_l; by intros -> |].
  rewrite append_cons. discriminate.
Qed.

Lemma append_eq_cons (s t u : string) (c : ascii) :
  s +:+ t = String c u ->
  (s = "" /\ t = String c u) \/ (exists s', s = String c s' /\ u = s' +:+ t).
Proof.
  destruct s as [|d s]; [rewrite append_empty_l; by left|].
  rewrite append_cons. intros [= -> <-]. right. by exists s.
Qed.

Lemma matches_cat_inv (r1 r2 : re) (s : string) :
  matches (Cat r1 r2) s ->
  exists s1 s2, s = s1 +:+ s2 /\ matches r1 s1 /\ matches r2 s2.
Proof. inversion 1; subst. by eexists _, _. Qed.

Lemma matches_lit_inv (c : ascii) (s : string) :
  matches (Lit c) s -> s = String c "".
Proof. by inversion 1. Qed.

Lemma matches_notlit_inv (c : ascii) (s : string) :
  matches (NotLit c) s -> exists d, d <> c /\ s = String d "".
Proof. inversion 1; subst. by eexists. Qed.

Lemma nullable_spec (r : re) : nullable r = true <-> matches r "".
Proof.
  split.
  - induction r; simpl; intros H; try discriminate.
    + constructor.
    + apply andb_true_iff in H as [H1 H2].
      change "" with ("" +:+ ""). constructor; auto.
    + apply orb_true_iff in H as [H|H]; [apply matches_alt_l | apply matches_alt_r]; auto.
    + constructor.
  - intros H. remember "" as s eqn:Hs. induction H; simpl; try discriminate; try done.
    + apply append_eq_empty in Hs as [-> ->]. by rewrite IHmatches1, IHmatches2.
    + by rewrite IHmatches.
    + rewrite IHmatches by done. apply orb_true_r.
Qed.

Lemma matches_star_cons (r : re) (c : ascii) (s : string) :
  matches (Star r) (String c s) ->
  exists s1 s2, s = s1 +:+ s2 /\ matches r (String c s1) /\ matches (Star r) s2.
Proof.
  intros H. remember (Star r) as r' eqn:Hr. remember (String c s) as t eqn:Ht.
  revert s Ht.
  induction H as [| | | | | | |r0 s1 s2 H1 IH1 H2 IH2]; intros u Hu; try discriminate.
  injection Hr as ->.
  apply append_eq_cons in Hu as [[-> ->]|(s1' & -> & ->)].
  - by apply IH2.
  - by exists s1', s2.
Qed.

Lemma deriv_spec (c : ascii) (r : re) (s : string) :
  matches (deriv c r) s <-> matches r (String c s).
Proof.
  revert s. induction r as [| |d|d|r1 IH1 r2 IH2|r1 IH1 r2 IH2|r1 IH1]; intros s; simpl.
  - split; inversion 1.
  - split; inversion 1.
  - destruct (Ascii.eqb_spec c d) as [->|Hne]; split; inversion 1; subst;
      try constructor; done.
  - destruct (Ascii.eqb_spec c d) as [->|Hne]; split; inversion 1; subst;
      try done; by constructor.
  - assert (Hcat : matches (Cat (deriv c r1) r2) s
                   -> matches (Cat r1 r2) (String c s)).
    { inversion 1; subst. rewrite <- append_cons. constructor; [by apply IH1 | done]. }
    assert (Hback : matches (Cat r1 r2) (String c s)
                    -> matches (Cat (deriv c r1) r2) s
                       \/ (nullable r1 = true /\ matches (deriv c r2) s)).
    { intros H. apply matches_cat_inv in H as (s1 & s2 & Heq & H1 & H2).
      symmetry in Heq.
      apply append_eq_cons in Heq as [[-> ->]|(s1' & -> & ->)].
      - right. split; [by apply nullable_spec | by apply IH2].
      - left. constructor; [by apply IH1 | done]. }
    destruct (nullable r1) eqn:Hnull.
    + split.
      * inversion 1; subst; [by apply Hcat|].
        change (String c s) with ("" +:+ String c s).
        constructor; [by apply nullable_spec | by apply IH2].
      * intros H. destruct (Hback H) as [?|[_ ?]];
          [by apply matches_alt_l | by apply matches_alt_r].
    + split; [exact Hcat|]. intros H. by destruct (Hback H) as [?|[? _]].
  - split.
    + inversion 1; subst; [apply matches_alt_l; by apply IH1
                          | apply matches_alt_r; by apply IH2].
    + inversion 1; subst; [apply matches_alt_l; by apply IH1
                          | apply matches_alt_r; by apply IH2].
  - split.
    + inversion 1; subst. rewrite <- append_cons.
      constructor; [by apply IH1 | done].
    + intros H. apply matches_star_cons in H as (s1 & s2 & -> & H1 & H2).
      constructor; [by apply IH1 | done].
Qed.

Lemma match_prefix_spec (r : re) (s : string) :
  match_prefix r s = true <-> exists m post, s = m +:+ post /\ matches r m.
Proof.
  revert r. induction s as [|c s IH]; intros r; cbn [match_prefix].
  - rewrite orb_false_r, nullable_spec. split.
    + intros H. by exists "", "".
    + intros (m & post & Heq & H). symmetry in Heq.
      by apply append_eq_empty in Heq as [-> _].
  - rewrite orb_true_iff, nullable_spec, IH. split.
    + intros [H|(m & post & -> & H)].
      * by exists "", (String c s).
      * exists (String c m), post. split; [done | by apply deriv_spec].
    + intros (m & post & Heq & H). symmetry in Heq.
      apply append_eq_cons in Heq as [[-> _]|(m' & -> & ->)]; [by left|].
      right. exists m', post. split; [done | by apply deriv_spec].
Qed.

(** [search] finds what the pattern matches, anywhere in the text. *)
Lemma search_spec (r : re) (s : string) :
  search r s = true <-> exists pre m post, s = pre +:+ m +:+ post /\ matches r m.
Proof.
  induction s as [|c s IH]; cbn [search].
  - rewrite orb_false_r, match_prefix_spec. split.
    + intros (m & post & -> & H). by exists "", m, post.
    + intros (pre & m & post & Heq & H). symmetry in Heq.
      apply append_eq_empty in Heq as [-> Heq]. by exists m, post.
  - rewrite orb_true_iff, match_prefix_spec, IH. split.
    + intros [(m & post & -> & H)|(pre & m & post & -> & H)].
      * by exists "", m, post.
      * by exists (String c pre), m, post.
    + intros (pre & m & post & Heq & H). destruct pre as [|d pre].
      * left. by exists m, post.
      * rewrite append_cons in Heq. injection Heq as -> ->.
        right. by exists pre, m, post.
Qed.

(** What [[^c]*] matches: the texts without [c]. *)
Lemma matches_star_notlit (c : ascii) (s : string) :
  matches (Star (NotLit c)) s <-> ~ substring_of (String c "") s.
Proof.
  split.
  - intros H. remember (Star (NotLit c)) as r eqn:Hr.
    induction H; try discriminate.
    + intros (pre & post & Heq). by destruct pre.
    + injection Hr as ->. apply matches_notlit_inv in H as (d & Hd & ->).
      intros (pre & post & Heq). rewrite append_cons, append_empty_l in Heq.
      destruct pre as [|e pre].
      * rewrite append_empty_l, append_cons in Heq. by injection Heq as ->.
      * rewrite append_cons in Heq. injection Heq as -> ->.
        apply IHmatches2; [done|]. by exists pre, post.
  - induction s as [|d s IH]; intros Hno; [constructor|].
    change (String d s) with (String d "" +:+ s). constructor.
    + constructor. intros ->. apply Hno. by exists "", s.
    + apply IH. intros (pre & post & ->). apply Hno. by exists (String d pre), post.
Qed.

(** What the pattern of [show_selected_message] matches: [<], a non-empty
    text without [>], and [>]. *)
Lemma matches_tag (m : string) :
  matches Window.tag_pattern m
  <-> exists mid, m = "<" +:+ mid +:+ ">" /\ mid <> ""
                  /\ ~ substring_of ">" mid.
Proof.
  unfold Window.tag_pattern, Plus. split.
  - intros H. apply matches_cat_inv in H as (s1 & s2 & -> & H1 & H2).
    apply matches_lit_inv in H1 as ->.
    apply matches_cat_inv in H2 as (s3 & s4 & -> & H3 & H4).
    apply matches_lit_inv in H4 as ->.
    apply matches_cat_inv in H3 as (s5 & s6 & -> & H5 & H6).
    apply matches_notlit_inv in H5 as (d & Hd & ->).
    exists (String d s6). split; [|split].
    + reflexivity.
    + done.
    + apply matches_star_notlit in H6. intros (pre & post & Heq).
      destruct pre as [|e pre].
      * rewrite append_empty_l, append_cons in Heq. by injection Heq as ->.
      * rewrite append_cons in Heq. injection Heq as -> ->.
        apply H6. by exists pre, post.
  - intros (mid & -> & Hne & Hno). destruct mid as [|d mid]; [done|].
    change ("<" +:+ String d mid +:+ ">")
      with ("<" +:+ (String d "" +:+ mid) +:+ ">").
    constructor; [constructor|]. constructor; [|constructor].
    constructor.
    + constructor. intros ->. apply Hno. by exists "", mid.
    + apply matches_star_notlit. intros (pre & post & ->).
      apply Hno. by exists (String d pre), post.
Qed.

End RegexFacts.

(** ** The main window *)

Module WindowFacts.
Import Text Exn Model Email LoaderSpec Signals Shown.

Section Methods.
Variable lower : string -> string.
Variable strftime : datetime -> string.

Lemma insert_rows_user_role results rows :
  map Window.user_role (Window.insert_rows strftime results rows)
  = map Window.user_role rows ++ results.
Proof.
  revert rows. induction results as [|m results IH]; intros rows.
  - simpl. by rewrite app_nil_r.
  - cbn [Window.insert_rows]. rewrite IH, map_app. simpl.
    by rewrite <- app_assoc.
Qed.

Lemma insert_rows_shows results rows :
  Forall (row_shows strftime) rows ->
  Forall (row_shows strftime) (Window.insert_rows strftime results rows).
Proof.
  revert rows. induction results as [|m results IH]; intros rows Hrows; [done|].
  cbn [Window.insert_rows]. apply IH. apply Forall_app. split; [done|].
  by repeat constructor.
Qed.

(** A signal that does not end the load changes only the progress value and
    the status bar. *)
Lemma deliver_non_terminal w s :
  is_terminal s = false ->
  let w' := Window.deliver lower strftime w s in
  Window.messages w' = Window.messages w
  /\ Window.results_table w' = Window.results_table w
  /\ Window.critical_boxes w' = Window.critical_boxes w
  /\ Window.progress_bar_visible w' = Window.progress_bar_visible w
  /\ Window.search_input w' = Window.search_input w
  /\ Window.search_type w' = Window.search_type w.
Proof. by destruct s. Qed.

Lemma foldl_deliver_non_terminal out w :
  Forall (fun s => is_terminal s = false) out ->
  let w' := foldl (Window.deliver lower strftime) w out in
  Window.messages w' = Window.messages w
  /\ Window.results_table w' = Window.results_table w
  /\ Window.critical_boxes w' = Window.critical_boxes w
  /\ Window.progress_bar_visible w' = Window.progress_bar_visible w
  /\ Window.search_input w' = Window.search_input w
  /\ Window.search_type w' = Window.search_type w.
Proof.
  intros Hout. revert w. induction Hout as [|s out Hs Hout IH]; intros w; [done|].
  cbn [foldl]. cbv zeta in *.
  destruct (deliver_non_terminal w s Hs) as (H1 & H2 & H3 & H4 & H5 & H6).
  destruct (IH (Window.deliver lower strftime w s)) as (I1 & I2 & I3 & I4 & I5 & I6).
  by rewrite I1, I2, I3, I4, I5, I6.
Qed.

Lemma loading_finished_shows records w :
  let w' := Window.loading_finished lower strftime records w in
  Window.messages w' = records
  /\ Window.progress_bar_visible w' = false
  /\ map Window.user_role (Window.results_table w')
     = Gui.search lower records (Window.search_input w) (Window.search_type w)
  /\ Forall (row_shows strftime) (Window.results_table w')
  /\ Window.status_bar w'
     = Window.FoundResults (length (Window.results_table w'))
  /\ Window.critical_boxes w' = Window.critical_boxes w.
Proof.
  cbv zeta. unfold Window.loading_finished, Window.search, Window.display_results.
  cbn. split; [done|]. split; [done|].
  split; [by rewrite insert_rows_user_role|].
  split; [by apply insert_rows_shows|].
  split; [|done].
  rewrite <- (length_map Window.user_role), insert_rows_user_role. done.
Qed.
End Methods.

End WindowFacts.

(** ** The window after a load *)

Module LoadOutcome.

Lemma deliver_keeps_label (lower : string -> string) (strftime : datetime -> string)
    (out : list Gui.Signal) (w : Window.MainWindow) :
  Window.file_label (foldl (Window.deliver lower strftime) w out)
  = Window.file_label w.
Proof.
  revert w. induction out as [|s out IH]; intros w; [done|].
  cbn [foldl]. rewrite IH. by destruct s.
Qed.

Lemma load_outcome
    (lower : string -> string) (bytes_decode : list Byte.byte -> result string)
    (parsedate_to_datetime : pyval -> result datetime)
    (message_factory : list Byte.byte -> Message) (strftime : datetime -> string)
    (fs : gmap string (list Byte.byte)) (file_path : string)
    (w : Window.MainWindow) :
  let out := Gui.run lower bytes_decode parsedate_to_datetime message_factory
                     fs file_path in
  let w' := Window.load_mbox lower bytes_decode parsedate_to_datetime
                             message_factory strftime fs file_path w in
  Window.progress_bar_visible w' = false
  /\ Window.search_input w' = Window.search_input w
  /\ Window.search_type w' = Window.search_type w
  /\ ((exists records,
         last out = Some (Gui.finished records)
         /\ Window.messages w' = records
         /\ map Window.user_role (Window.results_table w')
            = Gui.search lower records (Window.search_input w) (Window.search_type w)
         /\ Window.status_bar w'
            = Window.FoundResults (length (Window.results_table w'))
         /\ Window.critical_boxes w' = Window.critical_boxes w)
      \/ (exists e,
           last out = Some (Gui.error e)
           /\ Window.messages w' = Window.messages w
           /\ Window.results_table w' = Window.results_table w
           /\ Window.critical_boxes w' = Window.critical_boxes w ++ [e])).
Proof.
  cbv zeta. unfold Window.load_mbox.
  destruct (CourseFacts.run_shape lower bytes_decode parsedate_to_datetime
              message_factory fs file_path) as (out & t & -> & Hout & Ht).
  rewrite app_comm_cons, last_snoc, foldl_app. cbn [foldl].
  set (w0 := Window.show_message Window.Initializing
               (Window.set_value 0 (Window.set_visible true w))).
  destruct (WindowFacts.foldl_deliver_non_terminal lower strftime out
              (Window.deliver lower strftime w0 (Gui.status Gui.ScanningFile)) Hout)
    as (H1 & H2 & H3 & H4 & H5 & H6).
  cbv zeta in *.
  set (w1 := foldl (Window.deliver lower strftime)
               (Window.deliver lower strftime w0 (Gui.status Gui.ScanningFile)) out) in *.
  change (Window.messages w1 = Window.messages w) in H1.
  change (Window.results_table w1 = Window.results_table w) in H2.
  change (Window.critical_boxes w1 = Window.critical_boxes w) in H3.
  change (Window.search_input w1 = Window.search_input w) in H5.
  change (Window.search_type w1 = Window.search_type w) in H6.
  destruct t as [v|text|records|e]; try discriminate Ht.
  - destruct (WindowFacts.loading_finished_shows lower strftime records w1)
      as (L1 & L2 & L3 & L4 & L5 & L6).
    cbv zeta in *. cbn [Window.deliver].
    split; [exact L2|].
    split; [by rewrite <- H5|]. split; [by rewrite <- H6|].
    left. exists records. split; [done|]. split; [exact L1|].
    split; [by rewrite L3, H5, H6|]. split; [exact L5|]. by rewrite L6, H3.
  - cbn [Window.deliver]. split; [done|].
    split; [exact H5|]. split; [exact H6|].
    right. exists e. split; [done|]. split; [exact H1|]. split; [exact H2|].
    cbn. by rewrite H3.
Qed.


End LoadOutcome.

(** X16: when the window has received every signal of a load, the progress
    bar is hidden and the search box is as before, and either the load has
    finished -- the window holds the new records, the table lists the
    result of the current search over them and the status bar counts its
    rows -- or it has failed -- the window keeps the records and the table
    it had, and one error box more has been shown. *)
Theorem window_after_a_load
    (lower : string -> string) (bytes_decode : list Byte.byte -> result string)
    (parsedate_to_datetime : pyval -> result datetime)
    (message_factory : list Byte.byte -> Message) (strftime : datetime -> string)
    (fs : gmap string (list Byte.byte)) (file_path : string)
    (w : Window.MainWindow) :
  let out := Gui.run lower bytes_decode parsedate_to_datetime message_factory
                     fs file_path in
  let w' := Window.load_mbox lower bytes_decode parsedate_to_datetime
                             message_factory strftime fs file_path w in
  Window.progress_bar_visible w' = false
  /\ Window.search_input w' = Window.search_input w
  /\ Window.search_type w' = Window.search_type w
  /\ ((exists records,
         last out = Some (Gui.finished records)
         /\ Window.messages w' = records
         /\ map Window.user_role (Window.results_table w')
            = Gui.search lower records (Window.search_input w) (Window.search_type w)
         /\ Window.status_bar w'
            = Window.FoundResults (length (Window.results_table w'))
         /\ Window.critical_boxes w' = Window.critical_boxes w)
      \/ (exists e,
           last out = Some (Gui.error e)
           /\ Window.messages w' = Window.messages w
           /\ Window.results_table w' = Window.results_table w
           /\ Window.critical_boxes w' = Window.critical_boxes w ++ [e])).
Proof. apply LoadOutcome.load_outcome. Qed.

(** X17: with an empty search box and one of the three search types chosen,
    the window that receives a batch of records lists every record of it,
    in order, each row showing its own message ([str.lower] maps the empty
    string to itself). *)
Theorem finished_load_lists_every_record
    (lower : string -> string) (strftime : datetime -> string)
    (records : list EmailMessage) (w : Window.MainWindow) :
  lower "" = "" ->
  Window.search_input w = "" ->
  subject_enabled (Window.search_type w) || body_enabled (Window.search_type w) = true ->
  let w' := Window.loading_finished lower strftime records w in
  map Window.user_role (Window.results_table w') = records
  /\ Forall (Shown.row_shows strftime) (Window.results_table w')
  /\ Window.status_bar w' = Window.FoundResults (length records).
Proof.
  intros Hlower Hinput Htype. cbv zeta.
  destruct (WindowFacts.loading_finished_shows lower strftime records w)
    as (_ & _ & Hrows & Hshows & Hstatus & _). cbv zeta in *.
  assert (Hall : Gui.search lower records (Window.search_input w)
                            (Window.search_type w) = records).
  { rewrite SearchFacts.gui_search_filter, Hinput.
    apply SearchFacts.filter_all. intros m. unfold record_matches.
    rewrite Hlower, !TextFacts.contains_empty, !andb_true_r. exact Htype. }
  rewrite Hall in Hrows. split; [exact Hrows|]. split; [exact Hshows|].
  by rewrite Hstatus, <- (length_map Window.user_role), Hrows.
Qed.

Lemma finished_load_lists_every_record_witness :
  ascii_lower "" = ""
  /\ Window.search_input Window.init = ""
  /\ subject_enabled (Window.search_type Window.init)
     || body_enabled (Window.search_type Window.init) = true
  /\ map Window.user_role
         (Window.results_table
            (Window.loading_finished ascii_lower (fun _ => "2024-01-01 00:00")
               [Samples.record_a; Samples.record_b] Window.init))
     = [Samples.record_a; Samples.record_b].
Proof.
  split; [reflexivity|]. split; [reflexivity|]. split; [reflexivity|].
  apply (finished_load_lists_every_record ascii_lower (fun _ => "2024-01-01 00:00")
           [Samples.record_a; Samples.record_b] Window.init); reflexivity.
Defined.

(** X18: for a selected row whose message has a text body,
    [show_selected_message] raises nothing and shows the HTML template
    exactly when the body has a tag -- [<], one or more characters other
    than [>], and [>] -- and the template with [<pre>] otherwise; with no
    row selected it changes nothing. *)
Theorem preview_template_follows_tag
    (strftime : datetime -> string) (w : Window.MainWindow)
    (row : nat) (others : list nat) (item : Window.Row) (body_ : string) :
  Window.results_table w !! row = Some item ->
  body (Window.user_role item) = PStr body_ ->
  let message := Window.user_role item in
  Window.show_selected_message strftime [] w = Ok w
  /\ (Shown.tagged body_ ->
      Window.show_selected_message strftime (row :: others) w
      = Ok (Window.set_html
              (Window.HtmlDocument (str (subject message)) (str (from_addr message))
                                   (Window.date_text strftime message) body_) w))
  /\ (~ Shown.tagged body_ ->
      Window.show_selected_message strftime (row :: others) w
      = Ok (Window.set_html
              (Window.PreformattedDocument
                 (str (subject message)) (str (from_addr message))
                 (Window.date_text strftime message) body_) w)).
Proof.
  intros Hrow Hbody. cbv zeta.
  assert (Hsearch : Regex.search Window.tag_pattern body_ = true <-> Shown.tagged body_).
  { rewrite RegexFacts.search_spec. unfold Shown.tagged. split.
    - intros (pre & m & post & -> & Hm).
      apply RegexFacts.matches_tag in Hm as (mid & -> & Hne & Hno).
      by exists pre, mid, post.
    - intros (pre & mid & post & -> & Hne & Hno).
      exists pre, ("<" +:+ mid +:+ ">"), post. split; [done|].
      apply RegexFacts.matches_tag. by exists mid. }
  split; [done|].
  unfold Window.show_selected_message. rewrite Hrow, Hbody.
  destruct (Regex.search Window.tag_pattern body_); split; intros H; try done.
  - destruct H. by apply Hsearch.
  - assert (false = true) by (by apply Hsearch). done.
Qed.

Lemma preview_template_follows_tag_witness :
  Window.results_table
    (Window.loading_finished ascii_lower (fun _ => "2024-01-01 00:00")
       [Samples.record "Greeting" "<p>Hello</p>"] Window.init) !! 0%nat
  = Some (Window.mkRow "Unknown" "" "Greeting" (Samples.record "Greeting" "<p>Hello</p>"))
  /\ body (Samples.record "Greeting" "<p>Hello</p>") = PStr "<p>Hello</p>"
  /\ Window.show_selected_message (fun _ => "2024-01-01 00:00") []
       (Window.loading_finished ascii_lower (fun _ => "2024-01-01 00:00")
          [Samples.record "Greeting" "<p>Hello</p>"] Window.init)
     = Ok (Window.loading_finished ascii_lower (fun _ => "2024-01-01 00:00")
             [Samples.record "Greeting" "<p>Hello</p>"] Window.init).
Proof.
  split; [reflexivity|]. split; [reflexivity|].
  apply (preview_template_follows_tag (fun _ => "2024-01-01 00:00")
           (Window.loading_finished ascii_lower (fun _ => "2024-01-01 00:00")
              [Samples.record "Greeting" "<p>Hello</p>"] Window.init)
           0 [] (Window.mkRow "Unknown" "" "Greeting"
                   (Samples.record "Greeting" "<p>Hello</p>"))
           "<p>Hello</p>"); reflexivity.
Defined.

(** The pattern at work. *)
Example tag_pattern_samples :
  Regex.search Window.tag_pattern "<p>Hello</p>" = true
  /\ Regex.search Window.tag_pattern "a < b and c > d" = true
  /\ Regex.search Window.tag_pattern "x <> y" = false
  /\ Regex.search Window.tag_pattern "3 < 4" = false.
Proof. by vm_compute. Qed.

(** ** The menu loop *)

Module MainFacts.
Import Text Exn Model Email Shown CliMain.

Section Main.
Variable lower : string -> string.
Variable print_fails : Cli.ConsoleError -> bool.
Variable render_fails : string -> bool.
Variable strftime : datetime -> string.

Local Abbreviation row_of := (row_of strftime).

Lemma add_rows_ok results table rows :
  add_rows strftime results table = Ok rows ->
  rows = table ++ map row_of results /\ forallb str_fields results = true.
Proof.
  revert table. induction results as [|m results IH]; intros table.
  - simpl. intros [= <-]. by rewrite app_nil_r.
  - cbn [add_rows map forallb]. fold (str_fields m).
    destruct (str_fields m); [|done].
    intros H. apply IH in H as [-> ->]. by rewrite <- app_assoc.
Qed.

Lemma add_rows_raise results table :
  forallb str_fields results = false ->
  add_rows strftime results table = Raise NotRenderableError.
Proof.
  revert table. induction results as [|m results IH]; intros table; [done|].
  cbn [add_rows forallb]. fold (str_fields m).
  destruct (str_fields m); [|done]. simpl. apply IH.
Qed.

Lemma add_rows_str results table :
  forallb str_fields results = true ->
  add_rows strftime results table = Ok (table ++ map row_of results).
Proof.
  revert table. induction results as [|m results IH]; intros table.
  - simpl. by rewrite app_nil_r.
  - cbn [add_rows forallb map]. fold (str_fields m).
    destruct (str_fields m); [|done]. simpl. intros H.
    rewrite IH by done. by rewrite <- app_assoc.
Qed.

Lemma existsb_row_of (cell_fails : pyval -> bool) results :
  existsb (fun '(_, from_, subject_) => cell_fails from_ || cell_fails subject_)
          (map row_of results)
  = existsb (fun message =>
               cell_fails (from_addr message) || cell_fails (subject message))
            results.
Proof. induction results as [|m results IH]; [done|]. simpl. by rewrite IH. Qed.

Lemma choice_enables_a_field (choice : string) :
  existsb (String.eqb choice) ["1"; "2"; "3"] = true ->
  existsb (String.eqb choice) ["1"; "3"] || existsb (String.eqb choice) ["2"; "3"] = true.
Proof.
  simpl. destruct (String.eqb choice "1"), (String.eqb choice "2"),
    (String.eqb choice "3"); done.
Qed.

Lemma truthy_not_empty (s : string) : str_truthy s = true -> s <> "".
Proof. by destruct s. Qed.

Lemma except_exception_calls e :
  Forall proper_call (except_exception print_fails e).1.
Proof.
  unfold except_exception. destruct (print_fails _); by repeat constructor.
Qed.

(** The loop only makes proper calls. *)
Lemma menu_loop_calls n messages inputs :
  (length inputs <= n)%nat ->
  Forall proper_call
         (menu_loop lower print_fails render_fails strftime messages inputs).1.
Proof.
  revert inputs. induction n as [|n IH]; intros inputs Hlen.
  - destruct inputs; [|simpl in Hlen; lia]. by repeat constructor.
  - destruct inputs as [|[choice|] inputs']; cbn [menu_loop];
      [by repeat constructor | | by repeat constructor].
    simpl in Hlen.
    destruct (String.eqb choice "4") eqn:Hfour.
    { by repeat constructor. }
    destruct (existsb (String.eqb choice) ["1"; "2"; "3"]) eqn:Hchoice; cbn [negb].
    + destruct inputs' as [|[query|] inputs''];
        [by repeat constructor | | by repeat constructor].
      simpl in Hlen.
      pose proof (IH inputs'' ltac:(lia)) as Hcalls.
      destruct (menu_loop lower print_fails render_fails strftime messages inputs'')
        as [events outcome].
      destruct (str_truthy query) eqn:Hquery; cbn [negb fst snd] in *.
      * assert (proper_call
                  (SearchCall query (existsb (String.eqb choice) ["1"; "3"])
                              (existsb (String.eqb choice) ["2"; "3"]))) as Hcall
          by (split; [by apply truthy_not_empty | by apply choice_enables_a_field]).
        destruct (display_results render_fails strftime _) as [display|e].
        -- cbn [fst]. constructor; [done|]. constructor; [done|]. by constructor.
        -- pose proof (except_exception_calls e) as He.
           destruct (except_exception print_fails e) as [events' outcome'].
           cbn [fst] in *. constructor; [done|]. by constructor.
      * by repeat constructor.
    + pose proof (IH inputs' ltac:(lia)) as Hcalls.
      destruct (menu_loop lower print_fails render_fails strftime messages inputs')
        as [events outcome].
      cbn [fst snd] in *. by repeat constructor.
Qed.
End Main.

End MainFacts.

(** X19: the command-line tool never searches with an empty query or with
    no field enabled: every call of [search] that [main] makes, whatever is
    typed, has a non-empty query and at least one of the two flags. *)
Theorem main_never_searches_an_empty_query
    (lower : string -> string) (bytes_decode : list Byte.byte -> result string)
    (parsedate_to_datetime : pyval -> result datetime)
    (message_factory : list Byte.byte -> Message)
    (print_fails : Cli.ConsoleError -> bool) (render_fails : string -> bool)
    (strftime : datetime -> string)
    (argv : list string) (fs : gmap string (list Byte.byte))
    (inputs : list CliMain.Typed) :
  Forall Shown.proper_call
    (CliMain.main lower bytes_decode parsedate_to_datetime message_factory
                  print_fails render_fails strftime argv fs inputs).1.
Proof.
  unfold CliMain.main.
  destruct argv as [|prog [|mbox_path [|extra argv]]]; try by repeat constructor.
  destruct (Cli.load_mbox _ _ _ _ _ _ _) as [messages|code printed|e].
  - pose proof (MainFacts.menu_loop_calls lower print_fails render_fails strftime
                  (length inputs) messages inputs ltac:(done)) as Hcalls.
    destruct (CliMain.menu_loop lower print_fails render_fails strftime messages inputs)
      as [events outcome].
    by constructor.
  - by repeat constructor.
  - apply MainFacts.except_exception_calls.
Qed.

(** X21: [display_results] prints the notice exactly when there is no
    result.  Otherwise it adds one row for each result, in the order of the
    results, with "Unknown" as the date of a record without timestamp, and
    prints the table, unless rich refuses a cell: a sender or subject that
    is not a string stops it with [NotRenderableError] at [add_row], and a
    text that is not valid console markup with [MarkupError] at the
    print. *)
Theorem display_results_has_one_row_per_result
    (render_fails : string -> bool) (strftime : datetime -> string)
    (results : list EmailMessage) :
  let display := CliMain.display_results render_fails strftime results in
  let rows := map (Shown.row_of strftime) results in
  (display = Ok CliMain.NoResultsFound <-> results = [])
  /\ (forall rows', display = Ok (CliMain.ResultsPanel rows') -> rows' = rows)
  /\ (results <> [] ->
      display
      = if negb (forallb Shown.str_fields results) then Raise NotRenderableError
        else if existsb (fun message =>
                           CliMain.cell_fails render_fails (from_addr message)
                           || CliMain.cell_fails render_fails (subject message))
                        results
             then Raise MarkupError
             else Ok (CliMain.ResultsPanel rows)).
Proof.
  cbv zeta.
  assert (Hcase : results <> [] ->
    CliMain.display_results render_fails strftime results
    = if negb (forallb Shown.str_fields results) then Raise NotRenderableError
      else if existsb (fun message =>
                         CliMain.cell_fails render_fails (from_addr message)
                         || CliMain.cell_fails render_fails (subject message))
                      results
           then Raise MarkupError
           else Ok (CliMain.ResultsPanel (map (Shown.row_of strftime) results))).
  { intros Hne. destruct results as [|m results]; [done|].
    unfold CliMain.display_results.
    destruct (forallb Shown.str_fields (m :: results)) eqn:Hstr; cbn [negb].
    - rewrite (MainFacts.add_rows_str strftime _ _ Hstr). cbn [mbind Exn.result_bind app].
      by rewrite MainFacts.existsb_row_of.
    - by rewrite (MainFacts.add_rows_raise strftime _ _ Hstr). }
  split; [|split; [|exact Hcase]].
  - split; [|by intros ->].
    destruct results as [|m results]; [done|]. intros H.
    rewrite Hcase in H by done.
    destruct (negb _); [done|]. by destruct (existsb _ _).
  - intros rows' H. destruct results as [|m results]; [done|].
    rewrite Hcase in H by done.
    destruct (negb _); [done|]. destruct (existsb _ _); [done|]. by injection H.
Qed.

(** A subject that rich refuses stops [display_results], and with it the
    menu loop; the handler of [main] prints the text of the error, which
    quotes the tag and is refused again. *)
Example display_results_samples :
  CliMain.display_results (String.eqb "[/x]") (fun _ => "2024-01-01 00:00")
    [Samples.record_a]
  = Ok (CliMain.ResultsPanel [("Unknown", PStr "", PStr "Quarterly Report")])
  /\ CliMain.display_results (String.eqb "[/x]") (fun _ => "2024-01-01 00:00")
       [Samples.record "[/x]" "body"]
     = Raise MarkupError
  /\ CliMain.menu_loop ascii_lower Samples.closing_tag_fails (String.eqb "[/x]")
       (fun _ => "2024-01-01 00:00") [Samples.record "[/x]" "body"]
       [CliMain.Line "2"; CliMain.Line "body"; CliMain.Line "4"]
     = ([CliMain.Menu; CliMain.SearchCall "body" false true],
        CliMain.Uncaught MarkupError)
  /\ CliMain.menu_loop ascii_lower Samples.closing_tag_fails (String.eqb "[/x]")
       (fun _ => "2024-01-01 00:00") [Samples.record "[/x]" "body"]
       [CliMain.Line "5"; CliMain.Line "1"; CliMain.Interrupt]
     = ([CliMain.Menu; CliMain.InvalidChoice; CliMain.Menu; CliMain.Interrupted],
        CliMain.Returned).
Proof. repeat split; vm_compute; reflexivity. Qed.

(** ** Nested parts, and what search looks at *)

Module PartsFacts.
Import Text Exn Model Email LoaderSpec TextFacts.

Lemma join_app (l k : list string) : join (l ++ k) = join l +:+ join k.
Proof.
  induction l as [|s l IH]; [done|]. cbn [app]. unfold join in *. cbn [foldr].
  by rewrite IH, append_assoc.
Qed.

Lemma filter_flat_map {A B} (f : B -> bool) (g : A -> list B) (l : list A) :
  List.filter f (flat_map g l) = flat_map (fun x => List.filter f (g x)) l.
Proof.
  induction l as [|x l IH]; [done|]. simpl. by rewrite List.filter_app, IH.
Qed.

Lemma join_map_flat_map {A} (h : A -> string) (g : Message -> list A)
    (parts : list Message) :
  join (map h (flat_map g parts)) = join (map (fun p => join (map h (g p))) parts).
Proof.
  induction parts as [|p parts IH]; [done|]. simpl.
  rewrite map_app, join_app, IH. reflexivity.
Qed.

Lemma walk_parts headers content_type parts :
  walk (mkMessage headers content_type (Parts parts))
  = mkMessage headers content_type (Parts parts) :: flat_map walk parts.
Proof. reflexivity. Qed.

End PartsFacts.

(** X22: parts are collected through every level of nesting: the body that
    the plain-text loader builds for a multipart message -- one that does
    not itself claim the type [text/plain] -- is the concatenation, over
    its direct parts in order, of the plain text collected from each of
    them. *)
Theorem multipart_body_is_collected_from_the_parts
    (bytes_decode : list Byte.byte -> result string)
    (headers : list (string * pyval)) (content_type : string)
    (parts : list Message) :
  has_type "text/plain" (mkMessage headers content_type (Parts parts)) = false ->
  Cli._get_message_body bytes_decode (mkMessage headers content_type (Parts parts))
  = Ok (join (map (plain_text bytes_decode) parts)).
Proof.
  intros Htype. rewrite RecordFacts.cli_get_message_body.
  change (is_multipart (mkMessage headers content_type (Parts parts))) with true.
  cbn iota. unfold plain_text at 1. rewrite PartsFacts.walk_parts.
  cbn [List.filter]. rewrite Htype, PartsFacts.filter_flat_map.
  f_equal. apply PartsFacts.join_map_flat_map.
Qed.

Lemma multipart_body_is_collected_from_the_parts_witness :
  has_type "text/plain"
    (mkMessage [] "multipart/mixed"
       (Parts [Samples.alternative; Samples.leaf "text/plain" " again"])) = false
  /\ Cli._get_message_body Samples.ascii_decode
       (mkMessage [] "multipart/mixed"
          (Parts [Samples.alternative; Samples.leaf "text/plain" " again"]))
     = Ok (join (map (plain_text Samples.ascii_decode)
                     [Samples.alternative; Samples.leaf "text/plain" " again"])).
Proof.
  split; [reflexivity|].
  apply (multipart_body_is_collected_from_the_parts Samples.ascii_decode []
           "multipart/mixed"
           [Samples.alternative; Samples.leaf "text/plain" " again"]).
  reflexivity.
Defined.

(** X23: search looks at nothing but the lowercased query and the texts of
    the subject and of the body: two queries with the same lowercase form
    give the same result, and a change of the records that keeps these two
    texts -- another sender, date or identifier, a [Header] object for a
    [str] -- changes the result in the same way. *)
Theorem search_depends_on_texts_only
    (lower : string -> string) (messages : list EmailMessage)
    (query query' : string) (search_subject search_body : bool)
    (change : EmailMessage -> EmailMessage) :
  lower query = lower query' ->
  (forall m, str (subject (change m)) = str (subject m)
             /\ str (body (change m)) = str (body m)) ->
  Cli.search lower (map change messages) query' search_subject search_body
  = map change (Cli.search lower messages query search_subject search_body).
Proof.
  intros Hquery Hchange. rewrite !SearchFacts.cli_search_filter.
  induction messages as [|m messages IH]; [done|]. cbn [map List.filter].
  assert (Hsame : record_matches lower query' search_subject search_body (change m)
                  = record_matches lower query search_subject search_body m).
  { unfold record_matches. destruct (Hchange m) as [-> ->]. by rewrite Hquery. }
  rewrite Hsame, IH. by destruct (record_matches _ _ _ _ m).
Qed.

Lemma search_depends_on_texts_only_witness :
  ascii_lower "REPORT" = ascii_lower "report"
  /\ (forall m, str (subject (Shown.set_date_none m)) = str (subject m)
                /\ str (body (Shown.set_date_none m)) = str (body m))
  /\ Cli.search ascii_lower (map Shown.set_date_none [Samples.record_a; Samples.record_b])
                "report" true true
     = map Shown.set_date_none
           (Cli.search ascii_lower [Samples.record_a; Samples.record_b]
                       "REPORT" true true).
Proof.
  assert (H : forall m, str (subject (Shown.set_date_none m)) = str (subject m)
                        /\ str (body (Shown.set_date_none m)) = str (body m))
    by (intros m; split; reflexivity).
  split; [reflexivity|]. split; [exact H|].
  exact (search_depends_on_texts_only ascii_lower
           [Samples.record_a; Samples.record_b] "REPORT" "report" true true
           Shown.set_date_none eq_refl H).
Defined.

(** ** A load that fails *)

(** X25: cancelling the file dialog changes nothing.  Choosing a file whose
    load fails puts the name of the new file in the label, while the window
    keeps the records and the table of the file loaded before, with the
    progress bar hidden. *)
Theorem failed_load_keeps_old_records_under_new_label
    (lower : string -> string) (bytes_decode : list Byte.byte -> result string)
    (parsedate_to_datetime : pyval -> result datetime)
    (message_factory : list Byte.byte -> Message) (strftime : datetime -> string)
    (basename : string -> string)
    (fs : gmap string (list Byte.byte)) (file_name : string) (e : exn)
    (w : Window.MainWindow) :
  file_name <> "" ->
  last (Gui.run lower bytes_decode parsedate_to_datetime message_factory fs file_name)
  = Some (Gui.error e) ->
  let w' := Window.select_file lower bytes_decode parsedate_to_datetime
                               message_factory strftime basename fs file_name w in
  Window.file_label w' = basename file_name
  /\ Window.messages w' = Window.messages w
  /\ Window.results_table w' = Window.results_table w
  /\ Window.progress_bar_visible w' = false
  /\ Window.critical_boxes w' = Window.critical_boxes w ++ [e]
  /\ Window.select_file lower bytes_decode parsedate_to_datetime
                        message_factory strftime basename fs "" w = w.
Proof.
  intros Hname Hlast. cbv zeta. unfold Window.select_file.
  destruct file_name as [|c file_name]; [done|]. cbn [str_truthy].
  set (name := String c file_name) in *.
  set (w0 := Window.set_file_label (basename name) w).
  destruct (LoadOutcome.load_outcome lower bytes_decode parsedate_to_datetime
              message_factory strftime fs name w0)
    as (Hbar & _ & _ & [(records & Hfin & _)|(e' & Herr & Hm & Ht & Hb)]).
  { rewrite Hlast in Hfin. discriminate Hfin. }
  rewrite Hlast in Herr. injection Herr as <-.
  split; [|by repeat split].
  unfold Window.load_mbox. by rewrite LoadOutcome.deliver_keeps_label.
Qed.

Lemma failed_load_keeps_old_records_under_new_label_witness :
  "absent.mbox" <> ""
  /\ last (Gui.run ascii_lower Samples.ascii_decode Samples.sample_parsedate
                   Samples.body_only_factory Samples.sample_fs "absent.mbox")
     = Some (Gui.error (FileNotFoundError "absent.mbox"))
  /\ Window.messages
       (Window.select_file ascii_lower Samples.ascii_decode Samples.sample_parsedate
          Samples.body_only_factory (fun _ => "2024-01-01 00:00") (fun path => path)
          Samples.sample_fs "absent.mbox" Window.init)
     = Window.messages Window.init.
Proof.
  assert (Hname : "absent.mbox" <> "") by discriminate.
  split; [exact Hname|]. split; [reflexivity|].
  exact (proj1 (proj2
    (failed_load_keeps_old_records_under_new_label ascii_lower Samples.ascii_decode
       Samples.sample_parsedate Samples.body_only_factory
       (fun _ => "2024-01-01 00:00") (fun path => path) Samples.sample_fs
       "absent.mbox" (FileNotFoundError "absent.mbox") Window.init Hname eq_refl))).
Defined.
